(** * live_banknifty: the signal-and-position state machine

    A shallow embedding of [live_banknifty.py] and the properties of its
    crossover detector, position sizer, spread selector, expiry and entry
    transitions and portfolio ledger.

    Conventions of the embedding.
    - A Python/NumPy float is an exact rational ([Q]); a cell of a data frame
      is [option Q], [None] standing for NaN.  Every comparison with NaN is
      false, every arithmetic result with a NaN operand is NaN.
    - A Python value that flows through the JSON state file is a [pyval].
    - A computation that can raise is a [result]; [Raise e] that reaches the
      top of [run_live_options_trader] is an unhandled exception.
    - Timestamps are naive civil date-times to the second, as the bars of the
      data provider are.
    - [log_trade] is taken to succeed; its effect is the record it appends to
      the trade log. *)

From Stdlib Require Import ZArith QArith Qround Qabs Lqa Lia List Bool String Ascii.
Import ListNotations.

Local Open Scope Z_scope.

(** ** User parameters (lines 8-35 of the source) *)

Definition capital : Z := 100000.
Definition lot_size : Z := 15.
Definition brokerage_per_leg : Z := 20.

Definition short_ma_period : nat := 20.
Definition long_ma_period : nat := 80.

Definition vix_filter_threshold : Q := 20 # 1.
Definition allocation_calm : Q := 1 # 1.
Definition allocation_fear : Q := 1 # 2.

Definition sell_strike_moneyness : Q := 98 # 100.
Definition spread_width_pct : Q := 1 # 100.
Definition max_dte : Z := 7.

(** ** Numbers *)

Definition Qltb (x y : Q) : bool :=
  match (x ?= y)%Q with Lt => true | _ => false end.

Definition Qleb (x y : Q) : bool :=
  match (x ?= y)%Q with Gt => false | _ => true end.

(** Comparisons of data-frame cells: false as soon as one side is NaN. *)
Definition cell_gt (a b : option Q) : bool :=
  match a, b with
  | Some x, Some y => Qltb y x
  | _, _ => false
  end.

Definition cell_lt (a b : option Q) : bool := cell_gt b a.

Definition cell_le (a b : option Q) : bool :=
  match a, b with
  | Some x, Some y => Qleb x y
  | _, _ => false
  end.

Definition cell_eq (a b : option Q) : bool :=
  match a, b with
  | Some x, Some y => Qeq_bool x y
  | _, _ => false
  end.

(** Python's [round] with one argument: the nearest integer, a tie going to
    the even neighbour. *)
Definition py_round (x : Q) : Z :=
  let f := Qfloor x in
  match (x - inject_Z f ?= 1 # 2)%Q with
  | Lt => f
  | Gt => f + 1
  | Eq => if Z.even f then f else f + 1
  end.

(** ** Position Sizer (line 175) *)

Definition position_multiplier (vix_level : option Q) : Q :=
  if cell_lt vix_level (Some vix_filter_threshold)
  then allocation_calm else allocation_fear.

(** ** Spread Selector: the strikes (lines 164-165) *)

Definition sell_strike_of (current_price : Q) : Z :=
  py_round (current_price * sell_strike_moneyness / (100 # 1)) * 100.

Definition buy_strike_of (sell_strike : Z) : Z :=
  py_round (inject_Z sell_strike * (1 - spread_width_pct) / (100 # 1)) * 100.

(** ** Exceptions *)

Inductive exn : Type :=
| IndexError | KeyError | TypeError | AttributeError | ValueError.

Inductive result (A : Type) : Type :=
| Ok (a : A)
| Raise (e : exn).

Arguments Ok {A} a.
Arguments Raise {A} e.

Definition bind {A B : Type} (m : result A) (k : A -> result B) : result B :=
  match m with
  | Ok a => k a
  | Raise e => Raise e
  end.

Notation "x <- m ;; k" := (bind m (fun x => k))
  (at level 61, m at next level, right associativity).

(** ** Civil dates and date-times ([datetime.date], [datetime.datetime],
       [pandas.Timestamp]) *)

Record date : Type := mkdate { year : Z; month : Z; day : Z }.

Record datetime : Type :=
  mkdatetime { dt_date : date; hour : Z; minute : Z; second : Z }.

(** Dates and date-times compare field by field, most significant first. *)
Definition lex (c1 c2 : comparison) : comparison :=
  match c1 with Eq => c2 | _ => c1 end.

Definition date_compare (a b : date) : comparison :=
  lex (year a ?= year b) (lex (month a ?= month b) (day a ?= day b)).

Definition datetime_compare (a b : datetime) : comparison :=
  lex (date_compare (dt_date a) (dt_date b))
      (lex (hour a ?= hour b) (lex (minute a ?= minute b) (second a ?= second b))).

Definition date_geb (a b : date) : bool :=
  match date_compare a b with Lt => false | _ => true end.

Definition datetime_eqb (a b : datetime) : bool :=
  match datetime_compare a b with Eq => true | _ => false end.

Definition datetime_leb (a b : datetime) : bool :=
  match datetime_compare a b with Gt => false | _ => true end.

(** [date.toordinal]: day number in the proleptic Gregorian calendar. *)
Definition is_leap (y : Z) : bool :=
  (y mod 4 =? 0) && (negb (y mod 100 =? 0) || (y mod 400 =? 0)).

Definition days_before_year (y : Z) : Z :=
  let y1 := y - 1 in y1 * 365 + y1 / 4 - y1 / 100 + y1 / 400.

Definition days_in_month (y m : Z) : Z :=
  if (m =? 2) && is_leap y then 29
  else nth (Z.to_nat m) [0; 31; 28; 31; 30; 31; 30; 31; 31; 30; 31; 30; 31] 0.

Definition days_before_month (y m : Z) : Z :=
  nth (Z.to_nat m) [0; 0; 31; 59; 90; 120; 151; 181; 212; 243; 273; 304; 334] 0
  + (if (2 <? m) && is_leap y then 1 else 0).

Definition toordinal (d : date) : Z :=
  days_before_year (year d) + days_before_month (year d) (month d) + day d.

Definition seconds_of_day (t : datetime) : Z :=
  hour t * 3600 + minute t * 60 + second t.

Definition total_seconds (t : datetime) : Z :=
  toordinal (dt_date t) * 86400 + seconds_of_day t.

(** [(a - b).days]: the [days] field of a timedelta is the floor of the
    difference in days, negative differences included. *)
Definition timedelta_days (a b : datetime) : Z :=
  (total_seconds a - total_seconds b) / 86400.

(** *** Texts of dates *)

Definition digit_value (c : ascii) : option Z :=
  let n := Z.of_nat (nat_of_ascii c) in
  if (48 <=? n) && (n <=? 57) then Some (n - 48) else None.

Fixpoint digits_value (acc : Z) (s : string) : option Z :=
  match s with
  | EmptyString => Some acc
  | String c s' =>
      match digit_value c with
      | Some d => digits_value (10 * acc + d) s'
      | None => None
      end
  end.

Definition number_of (s : string) : option Z :=
  match s with
  | EmptyString => None
  | _ => digits_value 0 s
  end.

Fixpoint split_on (sep : ascii) (s : string) : list string :=
  match s with
  | EmptyString => [EmptyString]
  | String c s' =>
      if Ascii.eqb c sep then EmptyString :: split_on sep s'
      else match split_on sep s' with
           | x :: r => String c x :: r
           | [] => [String c EmptyString]
           end
  end.

Definition between (lo x hi : Z) : bool := (lo <=? x) && (x <=? hi).

Definition len (s : string) : Z := Z.of_nat (String.length s).

(** The civil date written in [s] as year-month-day: a year of four digits,
    a month and a day of one or two digits, the day existing in the month. *)
Definition parse_ymd (s : string) : option date :=
  match split_on "-"%char s with
  | [ys; ms; ds] =>
      match number_of ys, number_of ms, number_of ds with
      | Some y, Some m, Some d =>
          if (len ys =? 4) && between 1 (len ms) 2 && between 1 (len ds) 2
             && (1 <=? y) && between 1 m 12 && between 1 d (days_in_month y m)
          then Some (mkdate y m d) else None
      | _, _, _ => None
      end
  | _ => None
  end.

(** [dt.datetime.strptime(exp, '%Y-%m-%d')]: midnight of the date, or
    ValueError. *)
Definition strptime (exp : string) : result datetime :=
  match parse_ymd exp with
  | Some d => Ok (mkdatetime d 0 0 0)
  | None => Raise ValueError
  end.

Definition parse_hms (s : string) : option (Z * Z * Z) :=
  match split_on ":"%char s with
  | [hs; ms; ss] =>
      match number_of hs, number_of ms, number_of ss with
      | Some h, Some m, Some sec =>
          if (len hs =? 2) && (len ms =? 2) && (len ss =? 2)
             && between 0 h 23 && between 0 m 59 && between 0 sec 59
          then Some (h, m, sec) else None
      | _, _, _ => None
      end
  | _ => None
  end.

(** An ISO 8601 text, date alone or date, [T], time. *)
Definition parse_iso (s : string) : option datetime :=
  match split_on "T"%char s with
  | [ds] =>
      match parse_ymd ds with
      | Some d => Some (mkdatetime d 0 0 0)
      | None => None
      end
  | [ds; ts] =>
      match parse_ymd ds, parse_hms ts with
      | Some d, Some (h, m, sec) => Some (mkdatetime d h m sec)
      | _, _ => None
      end
  | _ => None
  end.

Definition digit_char (n : Z) : ascii := ascii_of_nat (Z.to_nat (48 + n mod 10)).

Definition pad2 (n : Z) : string :=
  String (digit_char (n / 10)) (String (digit_char n) EmptyString).

Definition pad4 (n : Z) : string :=
  String (digit_char (n / 1000)) (String (digit_char (n / 100)) (pad2 n)).

(** [Timestamp.isoformat()] of a timestamp with whole seconds. *)
Definition isoformat (t : datetime) : string :=
  (pad4 (year (dt_date t)) ++ "-" ++ pad2 (month (dt_date t)) ++ "-"
   ++ pad2 (day (dt_date t)) ++ "T" ++ pad2 (hour t) ++ ":" ++ pad2 (minute t)
   ++ ":" ++ pad2 (second t))%string.

(** ** Data frames *)

(** A row of the downloaded underlying series. *)
Record Bar : Type := mkBar {
  timestamp : datetime;
  open : option Q;
  high : option Q;
  low : option Q;
  close : option Q;
  volume : option Q
}.

(** A row of the downloaded volatility-index series ([Close] column). *)
Record VixBar : Type := mkVixBar { vix_time : datetime; vix_value : option Q }.

(** A row of [underlying_df] once [vix_close], [short_ma] and [long_ma] are
    attached (after line 121). *)
Record Row : Type := mkRow {
  bar : Bar;
  vix_close : option Q;
  short_ma : option Q;
  long_ma : option Q
}.

(** A row of the put side of an option chain. *)
Record PutQuote : Type := mkPutQuote { strike : option Q; lastPrice : option Q }.

Definition notna (c : option Q) : bool :=
  match c with Some _ => true | None => false end.

Definition last_opt {A : Type} (l : list A) : option A :=
  match l with
  | [] => None
  | x :: r => Some (last r x)
  end.

Fixpoint map2 {A B C : Type} (f : A -> B -> C) (l1 : list A) (l2 : list B) : list C :=
  match l1, l2 with
  | a :: r1, b :: r2 => f a b :: map2 f r1 r2
  | _, _ => []
  end.

(** [sort_index]: a stable sort on the time of each row. *)
Fixpoint insert_by {A : Type} (key : A -> datetime) (x : A) (l : list A) : list A :=
  match l with
  | [] => [x]
  | y :: r =>
      if datetime_leb (key x) (key y) then x :: l else y :: insert_by key x r
  end.

Definition sort_by {A : Type} (key : A -> datetime) (l : list A) : list A :=
  fold_right (insert_by key) [] l.

Definition sort_index (underlying_df : list Bar) : list Bar :=
  sort_by timestamp underlying_df.

(** Line 110 and [merge_asof] of line 114 together: the volatility series is
    binned by calendar day (last valid value of the day), forward filled, and
    every bar receives the value of the latest day that starts at or before
    the bar, that is the last valid reading dated on or before the bar's
    date; NaN when there is none. *)
Definition last_valid (col : list (option Q)) : option Q :=
  fold_left (fun acc c => match c with Some _ => c | None => acc end) col None.

Definition vix_asof (vix_df : list VixBar) (t : datetime) : option Q :=
  last_valid
    (map vix_value
       (filter (fun v => date_geb (dt_date t) (dt_date (vix_time v)))
          (sort_by vix_time vix_df))).

Definition merge_asof (underlying_df : list Bar) (vix_df : list VixBar)
  : list (Bar * option Q) :=
  map (fun b => (b, vix_asof vix_df (timestamp b))) underlying_df.

(** [rolling(window).mean()]: NaN until [window] values are seen, and NaN
    whenever the window holds a NaN. *)
Fixpoint sum_cells (col : list (option Q)) : option Q :=
  match col with
  | [] => Some (0 # 1)
  | c :: r =>
      match c, sum_cells r with
      | Some x, Some s => Some (x + s)%Q
      | _, _ => None
      end
  end.

Definition lastn {A : Type} (n : nat) (l : list A) : list A :=
  skipn (List.length l - n) l.

Definition window_mean (window : nat) (seen : list (option Q)) : option Q :=
  if (List.length seen <? window)%nat then None
  else match sum_cells (lastn window seen) with
       | Some s => Some (s / inject_Z (Z.of_nat window))%Q
       | None => None
       end.

Definition rolling_mean (window : nat) (col : list (option Q)) : list (option Q) :=
  map (fun i => window_mean window (firstn (S i) col)) (seq 0 (List.length col)).

Fixpoint attach (merged : list (Bar * option Q)) (s l : list (option Q)) : list Row :=
  match merged, s, l with
  | (b, v) :: r, x :: rs, y :: rl => mkRow b v x y :: attach r rs rl
  | _, _, _ => []
  end.

(** Lines 120-121. *)
Definition add_moving_averages (merged : list (Bar * option Q)) : list Row :=
  let closes := map (fun p => close (fst p)) merged in
  attach merged (rolling_mean short_ma_period closes)
                (rolling_mean long_ma_period closes).

(** Line 122: a row survives when none of its cells is NaN. *)
Definition complete (r : Row) : bool :=
  notna (open (bar r)) && notna (high (bar r)) && notna (low (bar r))
  && notna (close (bar r)) && notna (volume (bar r))
  && notna (vix_close r) && notna (short_ma r) && notna (long_ma r).

Definition dropna (df : list Row) : list Row := filter complete df.

(** [df.index[-1]]. *)
Definition index_last (df : list Row) : result datetime :=
  match last_opt df with
  | Some r => Ok (timestamp (bar r))
  | None => Raise IndexError
  end.

(** [df.loc[today]]: the rows labelled [today]. *)
Definition loc (today : datetime) (df : list Row) : list Row :=
  filter (fun r => datetime_eqb (timestamp (bar r)) today) df.

(** ** Signal Detector (lines 137-148) *)

Definition shift1 (col : list (option Q)) : list (option Q) :=
  match col with
  | [] => []
  | _ => None :: removelast col
  end.

Definition currently_above (df : list Row) : list bool :=
  map (fun r => cell_gt (short_ma r) (long_ma r)) df.

Definition previously_below (df : list Row) : list bool :=
  map2 cell_le (shift1 (map short_ma df)) (shift1 (map long_ma df)).

(** Boolean indexing [df[mask]]. *)
Definition select {A : Type} (df : list A) (mask : list bool) : list A :=
  map fst (filter snd (combine df mask)).

Definition crossover_signals (df : list Row) : list Row :=
  select df (map2 andb (currently_above df) (previously_below df)).

Definition is_crossover (df : list Row) (today : datetime) : bool :=
  match index_last (crossover_signals df) with
  | Ok t => datetime_eqb t today
  | Raise _ => false
  end.

(** ** Python values *)

#[local] Unset Elimination Schemes.

Inductive pyval : Type :=
| PNone
| PBool (b : bool)
| PInt (z : Z)
| PFloat (q : Q)
| PStr (s : string)
| PList (l : list pyval)
| PDict (d : list (string * pyval))
| PTimestamp (t : datetime)      (* pandas.Timestamp *)
| PDatetime (t : datetime).      (* datetime.datetime *)

#[local] Set Elimination Schemes.

(** A Python [dict] with text keys, in insertion order. *)
Definition dict : Type := list (string * pyval).

Fixpoint dict_get (k : string) (d : dict) : option pyval :=
  match d with
  | [] => None
  | (k', v) :: r => if String.eqb k k' then Some v else dict_get k r
  end.

(** [d[k] = v]: the entry is replaced in place, or appended. *)
Fixpoint dict_set (k : string) (v : pyval) (d : dict) : dict :=
  match d with
  | [] => [(k, v)]
  | (k', v') :: r =>
      if String.eqb k k' then (k, v) :: r else (k', v') :: dict_set k v r
  end.

Definition has_key (k : string) (d : dict) : bool :=
  match dict_get k d with Some _ => true | None => false end.

(** [d.get(k)]. *)
Definition py_get (k : string) (d : dict) : pyval :=
  match dict_get k d with Some v => v | None => PNone end.

(** [v[k]] with a text key. *)
Definition getitem (k : string) (v : pyval) : result pyval :=
  match v with
  | PDict d =>
      match dict_get k d with
      | Some x => Ok x
      | None => Raise KeyError
      end
  | _ => Raise TypeError
  end.

(** Truth value of a Python object. *)
Definition truthy (v : pyval) : bool :=
  match v with
  | PNone => false
  | PBool b => b
  | PInt z => negb (z =? 0)
  | PFloat q => negb (Qeq_bool q (0 # 1))
  | PStr s => negb (String.eqb s EmptyString)
  | PList l => match l with [] => false | _ => true end
  | PDict d => match d with [] => false | _ => true end
  | PTimestamp _ | PDatetime _ => true
  end.

(** [isinstance(v, (int, float))]; [bool] is a subclass of [int]. *)
Definition is_int_or_float (v : pyval) : bool :=
  match v with
  | PBool _ | PInt _ | PFloat _ => true
  | _ => false
  end.

Definition as_int (v : pyval) : option Z :=
  match v with
  | PBool b => Some (if b then 1 else 0)
  | PInt z => Some z
  | _ => None
  end.

Definition as_number (v : pyval) : option Q :=
  match v with
  | PFloat q => Some q
  | _ => option_map inject_Z (as_int v)
  end.

(** [a + b] and [a - b] on numbers; anything else met here raises. *)
Definition py_add (a b : pyval) : result pyval :=
  match as_int a, as_int b with
  | Some x, Some y => Ok (PInt (x + y))
  | _, _ =>
      match as_number a, as_number b with
      | Some x, Some y => Ok (PFloat (x + y))
      | _, _ => Raise TypeError
      end
  end.

Definition py_sub (a b : pyval) : result pyval :=
  match as_int a, as_int b with
  | Some x, Some y => Ok (PInt (x - y))
  | _, _ =>
      match as_number a, as_number b with
      | Some x, Some y => Ok (PFloat (x - y))
      | _, _ => Raise TypeError
      end
  end.

(** [v.date()] and [v.strftime(...)]. *)
Definition py_date (v : pyval) : result date :=
  match v with
  | PTimestamp t | PDatetime t => Ok (dt_date t)
  | _ => Raise AttributeError
  end.

Definition py_strftime (v : pyval) : result unit :=
  match v with
  | PTimestamp _ | PDatetime _ => Ok tt
  | _ => Raise AttributeError
  end.

(** Formatting with [:.2f]. *)
Definition py_format_f (v : pyval) : result unit :=
  match v with
  | PBool _ | PInt _ | PFloat _ => Ok tt
  | PStr _ => Raise ValueError
  | _ => Raise TypeError
  end.

(** What [json.dump] accepts. *)
Fixpoint json_ok (v : pyval) : bool :=
  match v with
  | PTimestamp _ | PDatetime _ => false
  | PList l => forallb json_ok l
  | PDict d => forallb (fun kv => json_ok (snd kv)) d
  | _ => true
  end.

(** The part of [pandas.to_datetime] met on state files that [save_state]
    wrote: an ISO text becomes a timestamp, [None] stays [None]; a text that
    is no date is rejected.  pandas reads further notations; the texts used
    below are ISO texts or no dates at all. *)
Definition pd_to_datetime (v : pyval) : result pyval :=
  match v with
  | PStr s =>
      match parse_iso s with
      | Some t => Ok (PTimestamp t)
      | None => Raise ValueError
      end
  | PTimestamp t | PDatetime t => Ok (PTimestamp t)
  | PNone => Ok PNone
  | _ => Raise TypeError
  end.

(** ** The state file *)

(** What the file system holds under [state_file]: nothing, an empty file, a
    text that [json.load] rejects, or a text that [json.load] reads as [v]. *)
Inductive file_content : Type :=
| FileAbsent
| FileEmpty
| FileInvalid
| FileJson (v : pyval).

Inductive message : Type :=
| WarnIncompleteHoldings     (* line 54 *)
| ErrorLoadingState          (* line 60 *)
| CriticalMarketData         (* line 117 *)
| ExitSignal                 (* line 128 *)
| EntrySignal                (* line 152 *)
| CouldNotProcessEntry.      (* line 191 *)

Definition default_state : dict :=
  [("cash"%string, PFloat (100000 # 1)); ("holdings"%string, PNone)].

Definition required_fields : list string :=
  ["entry_date"; "expiry"; "sell_strike"; "buy_strike"; "credit_received"]%string.

(** The test of lines 47-48. *)
Definition complete_holdings (holdings : pyval) : bool :=
  truthy holdings
  && match holdings with
     | PDict h => forallb (fun k => has_key k h) required_fields
     | _ => false
     end.

(** [save_state] (lines 63-75).  A date field is rewritten to its ISO text
    when it is a [pandas.Timestamp], and left as it is otherwise. *)
Definition iso_if_timestamp (k : string) (h : dict) : dict :=
  match dict_get k h with
  | Some (PTimestamp t) => dict_set k (PStr (isoformat t)) h
  | _ => h
  end.

Definition state_to_save (state : dict) : dict :=
  match py_get "holdings" state with
  | PDict h =>
      if truthy (PDict h)
      then dict_set "holdings"
             (PDict (iso_if_timestamp "expiry" (iso_if_timestamp "entry_date" h)))
             state
      else state
  | _ => state
  end.

(** [open(filename, 'w')] followed by [json.dump]: the old content is gone
    when the file is opened; a value that [json.dump] rejects leaves a broken
    prefix of the text behind and raises TypeError. *)
Definition json_dump (v : pyval) : file_content * result unit :=
  if json_ok v then (FileJson v, Ok tt) else (FileInvalid, Raise TypeError).

Definition save_state (state : dict) : file_content * result unit :=
  json_dump (PDict (state_to_save state)).

(** ** The world outside: market data and option chains *)

Record Market : Type := mkMarket {
  download_underlying : result (list Bar);       (* line 99, in local time *)
  download_vix : result (list VixBar);           (* line 106 *)
  ticker_options : result (list string);         (* line 155 *)
  option_chain : string -> result (list PutQuote) (* lines 160-161 *)
}.

(** Lines 98-118; a [Raise] is the branch that prints the critical error and
    returns. *)
Definition fetch_market_data (m : Market) : result (list (Bar * option Q)) :=
  underlying_df <- download_underlying m ;;
  match underlying_df with
  | [] => Raise ValueError
  | _ =>
      vix_df <- download_vix m ;;
      match vix_df with
      | [] => Raise ValueError
      | _ => Ok (merge_asof (sort_index underlying_df) vix_df)
      end
  end.

(** ** Trade log *)

Inductive TradeRecord : Type :=
| ExitRecord (ExitDate : datetime) (PnL : pyval)
| EntryRecord (EntryDate : datetime) (Credit : Q) (SellStrike BuyStrike : Z).

(** ** Expiry selection (lines 156-159) *)

Definition dte_in_range (t today : datetime) : bool :=
  (0 <=? timedelta_days t today) && (timedelta_days t today <=? max_dte).

Fixpoint valid_expiries (today : datetime) (available_expiries : list string)
  : result (list string) :=
  match available_expiries with
  | [] => Ok []
  | exp :: rest =>
      t <- strptime exp ;;
      r <- valid_expiries today rest ;;
      Ok (if dte_in_range t today then exp :: r else r)
  end.

(** [min] of a non-empty list of texts. *)
Definition str_min (l : list string) : option string :=
  match l with
  | [] => None
  | x :: r => Some (fold_left (fun m s => if (s <? m)%string then s else m) r x)
  end.

(** ** Spread Selector (lines 163-177) *)

Definition rows_at_strike (k : Z) (puts : list PutQuote) : list PutQuote :=
  filter (fun p => cell_eq (strike p) (Some (inject_Z k))) puts.

Definition net_credit (sell_price buy_price : option Q) (mult : Q) : option Q :=
  match sell_price, buy_price with
  | Some s, Some b => Some ((s - b) * inject_Z lot_size * mult)%Q
  | _, _ => None
  end.

Definition new_holdings (today expiry : datetime) (sell_strike buy_strike : Z)
  (credit_received : Q) : pyval :=
  PDict [("entry_date", PTimestamp today);
         ("expiry", PDatetime expiry);
         ("sell_strike", PInt sell_strike);
         ("buy_strike", PInt buy_strike);
         ("credit_received", PFloat credit_received)]%string.

(** ** Position State Machine *)

Definition machine_state : Type := (pyval * pyval * list TradeRecord)%type.

(** Lines 126-132. *)
Definition exit_step (today : datetime) (cash holdings : pyval)
  : result machine_state :=
  if truthy holdings then
    e <- getitem "expiry" holdings ;;
    d <- py_date e ;;
    if date_geb (dt_date today) d then
      c <- getitem "credit_received" holdings ;;
      pnl <- py_sub c (PInt (2 * brokerage_per_leg)) ;;
      cash' <- py_add cash pnl ;;
      Ok (cash', PNone, [ExitRecord today pnl])
    else Ok (cash, holdings, [])
  else Ok (cash, holdings, []).

(** The body of the [try] of lines 153-189.  [Raise] is an exception before
    anything was assigned; line 191 then prints and the state is as before. *)
Definition try_entry (df : list Row) (today : datetime) (m : Market)
  (cash holdings : pyval) : result machine_state :=
  available_expiries <- ticker_options m ;;
  valid <- valid_expiries today available_expiries ;;
  match str_min valid with
  | None => Ok (cash, holdings, [])
  | Some target_expiry_str =>
      puts <- option_chain m target_expiry_str ;;
      (* [latest_signal] was read at line 146; more than one row under the
         label makes [int(...)] of line 164 raise. *)
      match loc today df with
      | [latest_signal] =>
          match close (bar latest_signal) with
          | None => Raise ValueError
          | Some current_price =>
              let sell_strike := sell_strike_of current_price in
              let buy_strike := buy_strike_of sell_strike in
              match rows_at_strike sell_strike puts, rows_at_strike buy_strike puts with
              | sell_put_row :: _, buy_put_row :: _ =>
                  let mult := position_multiplier (vix_close latest_signal) in
                  match net_credit (lastPrice sell_put_row) (lastPrice buy_put_row) mult with
                  | Some credit_received =>
                      if Qltb (0 # 1) credit_received then
                        cash' <- py_add cash
                                   (PFloat (credit_received
                                            - inject_Z (2 * brokerage_per_leg) * mult)) ;;
                        match strptime target_expiry_str with
                        | Ok expiry =>
                            Ok (cash',
                                new_holdings today expiry sell_strike buy_strike
                                             credit_received,
                                [EntryRecord today credit_received sell_strike buy_strike])
                        | Raise _ => Ok (cash', holdings, [])
                        end
                      else Ok (cash, holdings, [])
                  | None => Ok (cash, holdings, [])
                  end
              | _, _ => Ok (cash, holdings, [])
              end
          end
      | _ => Raise TypeError
      end
  end.

(** Lines 134-191. *)
Definition entry_step (df : list Row) (today : datetime) (m : Market)
  (cash holdings : pyval) : machine_state :=
  if truthy holdings then (cash, holdings, [])
  else if is_crossover df today then
    match try_entry df today m cash holdings with
    | Ok s => s
    | Raise _ => (cash, holdings, [])
    end
  else (cash, holdings, []).

(** Lines 126-191: the expiry exit, then the entry evaluated on what the
    exit left. *)
Definition transitions (df : list Row) (today : datetime) (m : Market)
  (cash holdings : pyval) : result machine_state :=
  s1 <- exit_step today cash holdings ;;
  let '(cash1, holdings1, log1) := s1 in
  let '(cash2, holdings2, log2) := entry_step df today m cash1 holdings1 in
  Ok (cash2, holdings2, log1 ++ log2).

(** Lines 198-209. *)
Definition report (holdings : pyval) : result unit :=
  if truthy holdings then
    e <- getitem "entry_date" holdings ;;
    _ <- py_strftime e ;;
    x <- getitem "expiry" holdings ;;
    _ <- py_strftime x ;;
    s <- getitem "sell_strike" holdings ;;
    _ <- py_format_f s ;;
    b <- getitem "buy_strike" holdings ;;
    py_format_f b
  else Ok tt.

(** ** Loading the ledger and the whole run

    [pandas.to_datetime] is a library function with many accepted notations;
    the development is parametric in it.  [Raise] is an exception of the
    conversion. *)

Section Run.

Variable to_datetime : pyval -> result pyval.

(** The body of the [try] of [load_state] (lines 44-58) on the value that
    [json.load] returned. *)
Definition load_body (loaded : pyval) : result (dict * list message) :=
  match loaded with
  | PDict state =>
      let holdings := py_get "holdings" state in
      r <- (if complete_holdings holdings then
              e <- getitem "entry_date" holdings ;;
              e' <- to_datetime e ;;
              x <- getitem "expiry" holdings ;;
              x' <- to_datetime x ;;
              match holdings with
              | PDict h =>
                  Ok (dict_set "holdings"
                        (PDict (dict_set "expiry" x' (dict_set "entry_date" e' h)))
                        state, [])
              | _ => Raise TypeError
              end
            else
              Ok (dict_set "holdings" PNone state,
                  match holdings with
                  | PNone => []
                  | _ => [WarnIncompleteHoldings]
                  end)) ;;
      let '(state1, msgs) := r in
      Ok (if is_int_or_float (py_get "cash" state1) then state1
          else dict_set "cash" (PFloat (100000 # 1)) state1,
          msgs)
  | _ => Raise AttributeError
  end.

(** [load_state] (lines 38-61): the state and what was printed. *)
Definition load_state (f : file_content) : dict * list message :=
  match f with
  | FileAbsent | FileEmpty => (default_state, [])
  | FileInvalid => (default_state, [ErrorLoadingState])
  | FileJson loaded =>
      match load_body loaded with
      | Ok r => r
      | Raise _ => (default_state, [ErrorLoadingState])
      end
  end.

Inductive outcome : Type :=
| Completed (cash holdings : pyval)   (* the summary was printed *)
| MarketDataError                     (* line 117, then [return] *)
| Unhandled (e : exn).                (* an exception left the function *)

Record run_result : Type := mkRunResult {
  run_outcome : outcome;
  state_file : file_content;          (* the state file after the run *)
  trade_log : list TradeRecord        (* what the run appended to the log *)
}.

(** [run_live_options_trader] (lines 88-209) on the state file [f] and the
    market [m]. *)
Definition run_live_options_trader (f : file_content) (m : Market) : run_result :=
  let portfolio := fst (load_state f) in
  match getitem "cash" (PDict portfolio), getitem "holdings" (PDict portfolio) with
  | Ok cash, Ok holdings =>
      match fetch_market_data m with
      | Raise _ => mkRunResult MarketDataError f []
      | Ok merged =>
          let underlying_df := dropna (add_moving_averages merged) in
          match index_last underlying_df with
          | Raise e => mkRunResult (Unhandled e) f []
          | Ok today =>
              match transitions underlying_df today m cash holdings with
              | Raise e => mkRunResult (Unhandled e) f []
              | Ok (cash', holdings', log) =>
                  let portfolio' :=
                    dict_set "holdings" holdings' (dict_set "cash" cash' portfolio) in
                  match save_state portfolio' with
                  | (f', Raise e) => mkRunResult (Unhandled e) f' log
                  | (f', Ok _) =>
                      match report holdings' with
                      | Ok _ => mkRunResult (Completed cash' holdings') f' log
                      | Raise e => mkRunResult (Unhandled e) f' log
                      end
                  end
              end
          end
      end
  | Raise e, _ | _, Raise e => mkRunResult (Unhandled e) f []
  end.

End Run.

(** ** Auxiliary notions used by the proofs *)

Definition row_time (r : Row) : datetime := timestamp (bar r).

(** [shift(1)] with the cell that enters from the left made explicit. *)
Definition shift_with (c : option Q) (col : list (option Q)) : list (option Q) :=
  match col with
  | [] => []
  | _ => c :: removelast col
  end.

(** The rows that pass the crossover mask when the moving averages just
    before the first row are [cs] and [cl]. *)
Fixpoint signals_from (cs cl : option Q) (df : list Row) : list Row :=
  match df with
  | [] => []
  | r :: rest =>
      (if cell_gt (short_ma r) (long_ma r) && cell_le cs cl then [r] else [])
      ++ signals_from (short_ma r) (long_ma r) rest
  end.

Definition prev_short (cs : option Q) (init : list Row) : option Q :=
  match last_opt init with Some p => short_ma p | None => cs end.

Definition prev_long (cl : option Q) (init : list Row) : option Q :=
  match last_opt init with Some p => long_ma p | None => cl end.

(** The number of open positions: what the single slot holds, and how each
    record of the trade log changes it. *)
Definition slot (holdings : pyval) : Z := if truthy holdings then 1 else 0.

Definition event_delta (r : TradeRecord) : Z :=
  match r with
  | ExitRecord _ _ => -1
  | EntryRecord _ _ _ _ => 1
  end.

Fixpoint open_positions (n : Z) (log : list TradeRecord) : list Z :=
  match log with
  | [] => []
  | r :: rest => (n + event_delta r) :: open_positions (n + event_delta r) rest
  end.

(** ** A worked market

    Eighty-one quarter-hour bars from Monday 2024-01-08 09:15 on, closing at
    40000 eighty times and then at 49000, so that the short average crosses
    above the long one exactly at the last bar, 2024-01-11 10:30; the
    volatility index reads 15; puts at 48000 and 47500 trade at 120 and 40. *)

Definition ex_time (i : Z) : datetime :=
  mkdatetime (mkdate 2024 1 (8 + i / 25))
             (9 + (i mod 25 + 1) / 4) (15 * ((i mod 25 + 1) mod 4)) 0.

Definition ex_bar (t : datetime) (c : Q) : Bar :=
  mkBar t (Some c) (Some c) (Some c) (Some c) (Some (1000 # 1)).

Definition ex_bars : list Bar :=
  map (fun i => ex_bar (ex_time i) (if i <? 80 then 40000 # 1 else 49000 # 1))
      (map Z.of_nat (seq 0 81)).

Definition ex_vix : list VixBar :=
  [mkVixBar (mkdatetime (mkdate 2024 1 5) 0 0 0) (Some (15 # 1))].

Definition ex_puts : list PutQuote :=
  [mkPutQuote (Some (47000 # 1)) (Some (25 # 1));
   mkPutQuote (Some (47500 # 1)) (Some (40 # 1));
   mkPutQuote (Some (48000 # 1)) (Some (120 # 1))].

Definition ex_market : Market :=
  mkMarket (Ok ex_bars) (Ok ex_vix)
           (Ok ["2024-01-11"; "2024-01-17"; "2024-01-25"]%string)
           (fun exp => if String.eqb exp "2024-01-17" then Ok ex_puts
                       else Raise ValueError).

(** The same market when only seventy-nine bars could be downloaded. *)
Definition ex_short_market : Market :=
  mkMarket (Ok (firstn 79 ex_bars)) (Ok ex_vix)
           (ticker_options ex_market) (option_chain ex_market).

(** The same market one bar later, when the crossover is no longer fresh. *)
Definition ex_later_market : Market :=
  mkMarket (Ok (ex_bars ++ [ex_bar (ex_time 81) (49000 # 1)])) (Ok ex_vix)
           (ticker_options ex_market) (option_chain ex_market).

Definition ex_today : datetime := mkdatetime (mkdate 2024 1 11) 10 30 0.

Definition ex_expiry : datetime := mkdatetime (mkdate 2024 1 17) 0 0 0.

(** The snapshot of the worked market after truncation: its last two bars. *)
Definition ex_df : list Row :=
  [mkRow (ex_bar (mkdatetime (mkdate 2024 1 11) 10 15 0) (40000 # 1))
         (Some (15 # 1)) (Some (800000 # 20)) (Some (3200000 # 80));
   mkRow (ex_bar ex_today (49000 # 1))
         (Some (15 # 1)) (Some (809000 # 20)) (Some (3209000 # 80))].

(** A position opened a week earlier that expires on the day of the last
    bar, as [load_state] returns it, and the state file that holds it. *)
Definition ex_open_holdings : pyval :=
  PDict [("entry_date", PTimestamp (mkdatetime (mkdate 2024 1 4) 10 30 0));
         ("expiry", PTimestamp (mkdatetime (mkdate 2024 1 11) 0 0 0));
         ("sell_strike", PInt 47000);
         ("buy_strike", PInt 46500);
         ("credit_received", PFloat (1000 # 1))]%string.

Definition ex_open_file : file_content :=
  FileJson (PDict
    [("cash", PFloat (100000 # 1));
     ("holdings",
      PDict [("entry_date", PStr "2024-01-04T10:30:00");
             ("expiry", PStr "2024-01-11T00:00:00");
             ("sell_strike", PInt 47000);
             ("buy_strike", PInt 46500);
             ("credit_received", PFloat (1000 # 1))])]%string).

(** A state file whose holdings carry every required field but dates that
    are no dates. *)
Definition ex_bad_dates_file : file_content :=
  FileJson (PDict
    [("cash", PInt 5000);
     ("holdings",
      PDict [("entry_date", PStr "soon");
             ("expiry", PStr "later");
             ("sell_strike", PInt 47000);
             ("buy_strike", PInt 46500);
             ("credit_received", PFloat (1000 # 1))])]%string).

(** What lines 56-57 leave under [cash]. *)
Definition cash_rule (state st : dict) : Prop :=
  py_get "cash" st
  = if is_int_or_float (py_get "cash" state) then py_get "cash" state
    else PFloat (100000 # 1).

(** The state after an entry: the position built at lines 182-188 from the
    latest row, and the record appended at line 189. *)
Definition created (df : list Row) (today : datetime) (cash : pyval) (s : machine_state)
  : Prop :=
  exists latest price expiry credit cash',
    In latest df /\ close (bar latest) = Some price
    /\ (0 < credit)%Q
    /\ py_add cash (PFloat (credit - inject_Z (2 * brokerage_per_leg)
                                     * position_multiplier (vix_close latest))) = Ok cash'
    /\ s = (cash',
            new_holdings today expiry (sell_strike_of price)
                         (buy_strike_of (sell_strike_of price)) credit,
            [EntryRecord today credit (sell_strike_of price)
                         (buy_strike_of (sell_strike_of price))]).

(** ** The trade log workbook ([log_trade], lines 78-86)

    The log is absent or a workbook; a worksheet is the list of its rows, top
    to bottom, up to the last row that holds a cell, and a row is the list of
    its cells, left to right. *)

Definition xl_row : Type := list pyval.
Definition worksheet : Type := list xl_row.
Definition workbook : Type := list (string * worksheet).

Fixpoint sheet_get (name : string) (book : workbook) : option worksheet :=
  match book with
  | [] => None
  | (n, s) :: rest => if String.eqb name n then Some s else sheet_get name rest
  end.

Fixpoint sheet_set (name : string) (s : worksheet) (book : workbook) : workbook :=
  match book with
  | [] => [(name, s)]
  | (n, s') :: rest =>
      if String.eqb name n then (name, s) :: rest else (n, s') :: sheet_set name s rest
  end.

(** [worksheet.max_row]: the number of the last row that holds a cell, and 1
    on a sheet without cells. *)
Definition max_row (s : worksheet) : nat := Nat.max 1 (List.length s).

(** Writing the cells [r] over a row: cells further right are kept. *)
Definition overlay_cells (r old : xl_row) : xl_row := r ++ skipn (List.length r) old.

(** Writing the row [r] at the 0-based position [startrow] of a sheet. *)
Fixpoint write_row (startrow : nat) (r : xl_row) (s : worksheet) : worksheet :=
  match startrow, s with
  | O, [] => [r]
  | O, old :: rest => overlay_cells r old :: rest
  | S n, [] => [] :: write_row n r []
  | S n, old :: rest => old :: write_row n r rest
  end.

Definition columns_of (trade_record : dict) : xl_row :=
  map (fun kv => PStr (fst kv)) trade_record.

Definition values_of (trade_record : dict) : xl_row := map snd trade_record.

(** [df.to_excel(writer, index=False, header=header, startrow=start_row)] for
    the one-row frame of [trade_record]. *)
Definition to_excel (header : bool) (start_row : nat) (trade_record : dict)
  (s : worksheet) : worksheet :=
  if header
  then write_row (S start_row) (values_of trade_record)
         (write_row start_row (columns_of trade_record) s)
  else write_row start_row (values_of trade_record) s.

(** [log_trade] (lines 78-86): the workbook after the call. *)
Definition log_trade (file : option workbook) (trade_record : dict) : workbook :=
  match file with
  | None => [("Sheet1"%string, to_excel true 0 trade_record [])]
  | Some book =>
      match sheet_get "Sheet1" book with
      | Some s => sheet_set "Sheet1" (to_excel false (max_row s) trade_record s) book
      | None => sheet_set "Sheet1" (to_excel false 0 trade_record []) book
      end
  end.

(** The records that lines 131 and 189 pass to [log_trade]. *)
Definition record_dict (r : TradeRecord) : dict :=
  match r with
  | ExitRecord ExitDate PnL =>
      [("ExitDate", PTimestamp ExitDate); ("PnL", PnL); ("Reason", PStr "Expiry")]%string
  | EntryRecord EntryDate Credit SellStrike BuyStrike =>
      [("EntryDate", PTimestamp EntryDate); ("Credit", PFloat Credit);
       ("SellStrike", PInt SellStrike); ("BuyStrike", PInt BuyStrike)]%string
  end.

(** The log file after the records of a run were passed to [log_trade] one
    after the other. *)
Definition log_all (file : option workbook) (log : list TradeRecord) : option workbook :=
  fold_left (fun f r => Some (log_trade f (record_dict r))) log file.

(** ** Variants of the worked market *)

(** The volatility download comes back empty. *)
Definition ex_no_vix_market : Market :=
  mkMarket (Ok ex_bars) (Ok []) (ticker_options ex_market) (option_chain ex_market).

(** One of the offered expiries is not written as year-month-day. *)
Definition ex_bad_expiry_market : Market :=
  mkMarket (Ok ex_bars) (Ok ex_vix) (Ok ["2024-01-17"; "17 Jan 2024"]%string)
           (option_chain ex_market).

(** Both strikes trade at the same price. *)
Definition ex_flat_puts : list PutQuote :=
  [mkPutQuote (Some (47500 # 1)) (Some (40 # 1));
   mkPutQuote (Some (48000 # 1)) (Some (40 # 1))].

Definition ex_flat_chain_market : Market :=
  mkMarket (Ok ex_bars) (Ok ex_vix) (ticker_options ex_market)
           (fun _ => Ok ex_flat_puts).


(** A state file that holds a position expiring a week after the worked
    market ends, and that position as [load_state] returns it. *)
Definition ex_carried_file : file_content :=
  FileJson (PDict
    [("cash", PFloat (101160 # 1));
     ("holdings",
      PDict [("entry_date", PStr "2024-01-11T10:30:00");
             ("expiry", PStr "2024-01-18T00:00:00");
             ("sell_strike", PInt 48000);
             ("buy_strike", PInt 47500);
             ("credit_received", PFloat (1200 # 1))])]%string).

Definition ex_carried_holdings : pyval :=
  PDict [("entry_date", PTimestamp ex_today);
         ("expiry", PTimestamp (mkdatetime (mkdate 2024 1 18) 0 0 0));
         ("sell_strike", PInt 48000);
         ("buy_strike", PInt 47500);
         ("credit_received", PFloat (1200 # 1))]%string.

(** The text of a date as year-month-day with leading zeros, the form in
    which the data provider lists expiries. *)
Definition isodate (d : date) : string :=
  (pad4 (year d) ++ "-" ++ pad2 (month d) ++ "-" ++ pad2 (day d))%string.

(** [lia] after the quotients and remainders are replaced by their
    defining equations. *)
Ltac dlia := Z.to_euclidean_division_equations; lia.

(** * Properties *)

(** ** Numbers and rounding *)

Lemma Qltb_lt (x y : Q) : Qltb x y = true <-> (x < y)%Q.
Proof.
  unfold Qltb. rewrite Qlt_alt. destruct (x ?= y)%Q; split; congruence.
Qed.

Lemma Qleb_le (x y : Q) : Qleb x y = true <-> (x <= y)%Q.
Proof.
  unfold Qleb. rewrite Qle_alt. destruct (x ?= y)%Q; split; congruence.
Qed.

Lemma Qltb_ge (x y : Q) : Qltb x y = false <-> (y <= x)%Q.
Proof.
  rewrite Qle_alt. unfold Qltb. rewrite <- (Qcompare_antisym x y).
  destruct (x ?= y)%Q; simpl; split; congruence.
Qed.

Lemma py_round_cases (x : Q) :
  let f := Qfloor x in
  ((x - inject_Z f < 1 # 2)%Q /\ py_round x = f)
  \/ ((1 # 2 < x - inject_Z f)%Q /\ py_round x = f + 1)
  \/ ((x - inject_Z f == 1 # 2)%Q /\ (py_round x = f \/ py_round x = f + 1)).
Proof.
  intro f. unfold py_round. fold f.
  destruct (x - inject_Z f ?= 1 # 2)%Q eqn:E.
  - right; right. apply Qeq_alt in E. split; [exact E|].
    destruct (Z.even f); auto.
  - left. apply Qlt_alt in E. auto.
  - right; left. apply Qgt_alt in E. auto.
Qed.





(** ** Spread Selector and Position Sizer *)




(** C8.  The Position Sizer is total: the calm multiplier 1.0 is returned
    exactly when the reading is strictly below the threshold and the fear
    multiplier 0.5 otherwise; a reading equal to the threshold, and a missing
    reading, give the fear multiplier. *)
Theorem position_multiplier_boundary (vix_level : Q) :
  (position_multiplier (Some vix_level) = allocation_calm
   <-> (vix_level < vix_filter_threshold)%Q)
  /\ (position_multiplier (Some vix_level) = allocation_fear
      <-> (vix_filter_threshold <= vix_level)%Q)
  /\ position_multiplier (Some vix_filter_threshold) = allocation_fear
  /\ position_multiplier None = allocation_fear
  /\ allocation_calm = 1 # 1 /\ allocation_fear = 1 # 2.
Proof.
  unfold position_multiplier, cell_lt, cell_gt.
  destruct (Qltb vix_level vix_filter_threshold) eqn:E.
  - apply Qltb_lt in E. repeat split; auto; try discriminate.
    intro H. apply Qle_not_lt in H. contradiction.
  - apply Qltb_ge in E. repeat split; auto; try discriminate.
    intro H. apply Qle_not_lt in E. contradiction.
Qed.

(** ** Signal Detector *)

(** *** Equality of dates *)

Lemma lex_eq (c1 c2 : comparison) : lex c1 c2 = Eq <-> c1 = Eq /\ c2 = Eq.
Proof. destruct c1, c2; simpl; intuition congruence. Qed.

Lemma date_compare_eq (a b : date) : date_compare a b = Eq <-> a = b.
Proof.
  unfold date_compare. rewrite !lex_eq, !Z.compare_eq_iff.
  destruct a, b; simpl. split.
  - intros (-> & -> & ->). reflexivity.
  - intros [= -> -> ->]. auto.
Qed.

Lemma datetime_eqb_eq (a b : datetime) : datetime_eqb a b = true <-> a = b.
Proof.
  unfold datetime_eqb.
  assert (H : datetime_compare a b = Eq <-> a = b).
  { unfold datetime_compare. rewrite !lex_eq, !Z.compare_eq_iff, date_compare_eq.
    destruct a, b; simpl. split.
    - intros (-> & -> & -> & ->). reflexivity.
    - intros [= -> -> -> ->]. auto. }
  destruct (datetime_compare a b); split; intro E; try discriminate; try reflexivity.
  - apply H. reflexivity.
  - apply H in E. discriminate.
  - apply H in E. discriminate.
Qed.

Lemma datetime_eqb_refl (a : datetime) : datetime_eqb a a = true.
Proof. apply datetime_eqb_eq. reflexivity. Qed.

(** *** The crossover mask, row by row *)



Lemma shift_with_cons (c x : option Q) (col : list (option Q)) :
  shift_with c (x :: col) = c :: shift_with x col.
Proof. destruct col; reflexivity. Qed.

Lemma shift1_shift_with (col : list (option Q)) : shift1 col = shift_with None col.
Proof. reflexivity. Qed.


Lemma select_signals_from (df : list Row) : forall cs cl,
  select df
    (map2 andb (currently_above df)
       (map2 cell_le (shift_with cs (map short_ma df)) (shift_with cl (map long_ma df))))
  = signals_from cs cl df.
Proof.
  induction df as [|r rest IH]; intros cs cl; [reflexivity|].
  cbn [map currently_above]. rewrite !shift_with_cons. cbn [map2].
  unfold select in *. cbn [combine filter snd].
  unfold currently_above in IH. cbn [signals_from]. rewrite <- IH.
  destruct (cell_gt (short_ma r) (long_ma r) && cell_le cs cl); reflexivity.
Qed.

Lemma crossover_signals_from (df : list Row) :
  crossover_signals df = signals_from None None df.
Proof.
  unfold crossover_signals, previously_below. rewrite !shift1_shift_with.
  apply select_signals_from.
Qed.

Lemma signals_from_In (df : list Row) : forall cs cl r,
  In r (signals_from cs cl df) -> In r df.
Proof.
  induction df as [|x rest IH]; intros cs cl r H; [exact H|].
  cbn [signals_from] in H. apply in_app_or in H. destruct H as [H|H].
  - destruct (cell_gt (short_ma x) (long_ma x) && cell_le cs cl);
      [destruct H as [<-|[]]; left; reflexivity | destruct H].
  - right. eapply IH. exact H.
Qed.



Lemma last_cons_default {A : Type} (r : list A) : forall x y : A,
  last (y :: r) x = last r y.
Proof.
  induction r as [|z r IH]; intros x y; [reflexivity|].
  change (last (y :: z :: r) x) with (last (z :: r) x).
  rewrite (IH x z), (IH y z). reflexivity.
Qed.

Lemma last_opt_cons {A : Type} (x : A) (l : list A) :
  last_opt (x :: l) = match last_opt l with Some y => Some y | None => Some x end.
Proof.
  unfold last_opt. destruct l as [|y r]; [reflexivity|].
  rewrite last_cons_default. reflexivity.
Qed.

Lemma last_opt_snoc {A : Type} (l : list A) (x : A) : last_opt (l ++ [x]) = Some x.
Proof.
  induction l as [|y r IH]; [reflexivity|].
  change ((y :: r) ++ [x]) with (y :: (r ++ [x])).
  rewrite last_opt_cons, IH. reflexivity.
Qed.

Lemma signals_from_snoc (init : list Row) (cur : Row) : forall cs cl,
  signals_from cs cl (init ++ [cur])
  = signals_from cs cl init
    ++ (if cell_gt (short_ma cur) (long_ma cur)
           && cell_le (prev_short cs init) (prev_long cl init)
        then [cur] else []).
Proof.
  induction init as [|x rest IH]; intros cs cl.
  - cbn. rewrite app_nil_r. reflexivity.
  - change ((x :: rest) ++ [cur]) with (x :: (rest ++ [cur])).
    cbn [signals_from]. rewrite IH, <- app_assoc.
    unfold prev_short, prev_long. rewrite last_opt_cons.
    destruct (last_opt rest); reflexivity.
Qed.

Lemma snoc_cases {A : Type} (l : list A) : l = [] \/ exists init x, l = init ++ [x].
Proof.
  destruct l as [|a l]; [left; reflexivity|right].
  exists (removelast (a :: l)), (last (a :: l) a).
  apply app_removelast_last. discriminate.
Qed.

Lemma last_opt_In {A : Type} (l : list A) (r : A) : last_opt l = Some r -> In r l.
Proof.
  destruct (snoc_cases l) as [->|(init & x & ->)]; [discriminate|].
  rewrite last_opt_snoc. intros [= <-]. apply in_or_app. right. left. reflexivity.
Qed.

(** With distinct labels, the signal is the crossover test on the last row. *)
Lemma is_crossover_last (init : list Row) (cur : Row) :
  NoDup (map row_time (init ++ [cur])) ->
  is_crossover (init ++ [cur]) (row_time cur)
  = cell_gt (short_ma cur) (long_ma cur)
    && cell_le (prev_short None init) (prev_long None init).
Proof.
  intro ND. unfold is_crossover.
  rewrite crossover_signals_from, signals_from_snoc.
  destruct (cell_gt (short_ma cur) (long_ma cur)
            && cell_le (prev_short None init) (prev_long None init)).
  - unfold index_last. rewrite last_opt_snoc. apply datetime_eqb_refl.
  - rewrite app_nil_r. unfold index_last.
    destruct (last_opt (signals_from None None init)) as [r|] eqn:E; [|reflexivity].
    assert (Hin : In r init).
    { apply (signals_from_In init None None). apply last_opt_In. exact E. }
    destruct (datetime_eqb (timestamp (bar r)) (row_time cur)) eqn:T; [|reflexivity].
    apply datetime_eqb_eq in T. exfalso.
    rewrite map_app in ND. apply NoDup_remove_2 in ND. rewrite app_nil_r in ND.
    apply ND. rewrite <- T. apply (in_map row_time). exact Hin.
Qed.

Lemma cell_gt_spec (a b : option Q) :
  cell_gt a b = true <-> exists x y, a = Some x /\ b = Some y /\ (y < x)%Q.
Proof.
  unfold cell_gt. destruct a as [x|], b as [y|]; split;
    try discriminate; try (intros (x' & y' & E1 & E2 & _); discriminate).
  - intro H. exists x, y. apply Qltb_lt in H. auto.
  - intros (x' & y' & [= <-] & [= <-] & H). apply Qltb_lt. exact H.
Qed.

Lemma cell_le_spec (a b : option Q) :
  cell_le a b = true <-> exists x y, a = Some x /\ b = Some y /\ (x <= y)%Q.
Proof.
  unfold cell_le. destruct a as [x|], b as [y|]; split;
    try discriminate; try (intros (x' & y' & E1 & E2 & _); discriminate).
  - intro H. exists x, y. apply Qleb_le in H. auto.
  - intros (x' & y' & [= <-] & [= <-] & H). apply Qleb_le. exact H.
Qed.

Lemma index_last_snoc (init : list Row) (cur : Row) :
  index_last (init ++ [cur]) = Ok (row_time cur).
Proof. unfold index_last. rewrite last_opt_snoc. reflexivity. Qed.

Lemma is_crossover_short (df : list Row) (t : datetime) :
  (List.length df < 2)%nat -> is_crossover df t = false.
Proof.
  intro H. destruct df as [|r [|r' rest]]; [reflexivity| |simpl in H; lia].
  unfold is_crossover. rewrite crossover_signals_from.
  cbn [signals_from cell_le]. rewrite andb_false_r. reflexivity.
Qed.

(** C1.  On a snapshot whose bars carry distinct timestamps, the detector
    reports a signal if and only if the snapshot ends with two bars [prev],
    [cur] such that short_ma > long_ma at [cur] and short_ma <= long_ma at
    [prev]; crossovers at earlier bars play no part, and a snapshot of fewer
    than two bars gives no signal. *)
Theorem crossover_signal_is_fresh (df : list Row) :
  NoDup (map row_time df) ->
  (forall today : datetime,
     index_last df = Ok today ->
     (is_crossover df today = true <->
      exists init prev cur s l s' l',
        df = init ++ [prev; cur]
        /\ short_ma cur = Some s /\ long_ma cur = Some l
        /\ short_ma prev = Some s' /\ long_ma prev = Some l'
        /\ (l < s)%Q /\ (s' <= l')%Q))
  /\ ((List.length df < 2)%nat ->
      forall today : datetime, is_crossover df today = false).
Proof.
  intro ND. split; [|intros H today; apply is_crossover_short; exact H].
  intros today Htoday.
  destruct (snoc_cases df) as [->|(init & cur & ->)]; [discriminate|].
  rewrite index_last_snoc in Htoday. injection Htoday as <-.
  rewrite (is_crossover_last init cur ND), andb_true_iff, cell_gt_spec, cell_le_spec.
  split.
  - intros [(s & l & Es & El & Hsl) (s' & l' & Es' & El' & Hsl')].
    destruct (snoc_cases init) as [->|(init' & prev & ->)].
    + discriminate Es'.
    + unfold prev_short, prev_long in Es', El'. rewrite last_opt_snoc in Es', El'.
      exists init', prev, cur, s, l, s', l'.
      rewrite <- app_assoc. repeat split; assumption.
  - intros (init' & prev & cur' & s & l & s' & l' & E & Es & El & Es' & El' & H1 & H2).
    change [prev; cur'] with ([prev] ++ [cur']) in E. rewrite app_assoc in E.
    apply app_inj_tail in E. destruct E as [-> ->].
    unfold prev_short, prev_long. rewrite last_opt_snoc.
    split; [exists s, l | exists s', l']; auto.
Qed.

Lemma crossover_signal_is_fresh_witness :
  is_crossover ex_df ex_today = true
  <-> exists init prev cur s l s' l',
        ex_df = init ++ [prev; cur]
        /\ short_ma cur = Some s /\ long_ma cur = Some l
        /\ short_ma prev = Some s' /\ long_ma prev = Some l'
        /\ (l < s)%Q /\ (s' <= l')%Q.
Proof.
  refine (proj1 (crossover_signal_is_fresh ex_df _) ex_today eq_refl).
  repeat constructor; cbn; intuition discriminate.
Defined.

(** The snapshot of the worked market is what lines 120-122 compute from its
    bars, and the detector fires on it; one more flat bar suppresses the
    signal. *)
Example ex_df_is_the_snapshot :
  dropna (add_moving_averages (merge_asof (sort_index ex_bars) ex_vix)) = ex_df
  /\ is_crossover ex_df ex_today = true
  /\ is_crossover
       (dropna (add_moving_averages
                  (merge_asof (sort_index (ex_bars ++ [ex_bar (ex_time 81) (49000 # 1)]))
                              ex_vix)))
       (ex_time 81) = false.
Proof. vm_compute. repeat split. Qed.

(** ** Python values *)

(** *** Dictionaries *)

Lemma dict_get_set_same (k : string) (v : pyval) (d : dict) :
  dict_get k (dict_set k v d) = Some v.
Proof.
  induction d as [|[k' v'] r IH]; cbn.
  - rewrite String.eqb_refl. reflexivity.
  - destruct (String.eqb k k') eqn:E; cbn; rewrite ?String.eqb_refl, ?E; auto.
Qed.

Lemma dict_get_set_other (k k' : string) (v : pyval) (d : dict) :
  k <> k' -> dict_get k (dict_set k' v d) = dict_get k d.
Proof.
  intro N. apply String.eqb_neq in N.
  induction d as [|[k0 v0] r IH]; cbn.
  - rewrite N. reflexivity.
  - destruct (String.eqb k' k0) eqn:E; cbn.
    + apply String.eqb_eq in E. subst k0. rewrite N. reflexivity.
    + rewrite IH. reflexivity.
Qed.

Lemma py_get_set_same (k : string) (v : pyval) (d : dict) :
  py_get k (dict_set k v d) = v.
Proof. unfold py_get. rewrite dict_get_set_same. reflexivity. Qed.

Lemma py_get_set_other (k k' : string) (v : pyval) (d : dict) :
  k <> k' -> py_get k (dict_set k' v d) = py_get k d.
Proof. intro N. unfold py_get. rewrite dict_get_set_other by exact N. reflexivity. Qed.

Lemma has_key_set_same (k : string) (v : pyval) (d : dict) :
  has_key k (dict_set k v d) = true.
Proof. unfold has_key. rewrite dict_get_set_same. reflexivity. Qed.

Lemma has_key_set (k k' : string) (v : pyval) (d : dict) :
  has_key k d = true -> has_key k (dict_set k' v d) = true.
Proof.
  intro H. destruct (string_dec k k') as [->|N].
  - apply has_key_set_same.
  - unfold has_key. rewrite dict_get_set_other by exact N. exact H.
Qed.

Lemma dict_set_not_nil (k : string) (v : pyval) (d : dict) : dict_set k v d <> [].
Proof.
  destruct d as [|[k' v'] r]; cbn; [discriminate|].
  destruct (String.eqb k k'); discriminate.
Qed.

Lemma json_ok_dict_false (k : string) (v : pyval) (d : dict) :
  dict_get k d = Some v -> json_ok v = false -> json_ok (PDict d) = false.
Proof.
  intros G J. cbn. induction d as [|[k' v'] r IH]; [discriminate|].
  cbn in *. destruct (String.eqb k k').
  - injection G as ->. rewrite J. reflexivity.
  - rewrite (IH G). apply andb_false_r.
Qed.

(** *** Numbers as Python values *)




(** ** The transitions *)

(** *** Expiry selection *)

Lemma valid_expiries_sound (today : datetime) (available : list string) :
  forall valid, valid_expiries today available = Ok valid ->
  forall exp, In exp valid ->
  In exp available
  /\ exists t, strptime exp = Ok t /\ dte_in_range t today = true.
Proof.
  induction available as [|x rest IH]; intros valid H exp Hin.
  - injection H as <-. destruct Hin.
  - cbn [valid_expiries] in H. unfold bind in H.
    destruct (strptime x) as [t|] eqn:P; [|discriminate].
    destruct (valid_expiries today rest) as [r|] eqn:R; [|discriminate].
    injection H as <-.
    destruct (dte_in_range t today) eqn:D.
    + destruct Hin as [<-|Hin].
      * split; [left; reflexivity | exists t; auto].
      * destruct (IH r eq_refl exp Hin) as [H1 H2]. split; [right; exact H1 | exact H2].
    + destruct (IH r eq_refl exp Hin) as [H1 H2]. split; [right; exact H1 | exact H2].
Qed.

Lemma fold_min_In (l : list string) : forall x,
  In (fold_left (fun m s => if (s <? m)%string then s else m) l x) (x :: l).
Proof.
  induction l as [|y r IH]; intro x; [left; reflexivity|].
  cbn [fold_left]. destruct (y <? x)%string.
  - right. apply IH.
  - destruct (IH x) as [H|H]; [left; exact H | right; right; exact H].
Qed.

Lemma str_min_In (l : list string) (x : string) : str_min l = Some x -> In x l.
Proof.
  destruct l as [|y r]; [discriminate|]. intros [= <-]. apply fold_min_In.
Qed.

(** *** The latest row *)


Lemma loc_In (today : datetime) (df : list Row) (r : Row) :
  In r (loc today df) -> In r df.
Proof. unfold loc. intro H. apply filter_In in H. apply H. Qed.

(** *** The steps, case by case *)


Lemma try_entry_cases (df : list Row) (today : datetime) (m : Market)
  (cash holdings : pyval) (s : machine_state) :
  try_entry df today m cash holdings = Ok s ->
  s = (cash, holdings, []) \/ created df today cash s.
Proof.
  unfold try_entry, bind.
  destruct (ticker_options m) as [available|]; [|discriminate].
  destruct (valid_expiries today available) as [valid|] eqn:V; [|discriminate].
  destruct (str_min valid) as [target|] eqn:M; [|intros [= <-]; left; reflexivity].
  destruct (option_chain m target) as [puts|]; [|discriminate].
  destruct (loc today df) as [|latest [|]] eqn:L; try discriminate.
  destruct (close (bar latest)) as [price|] eqn:C; [|discriminate].
  destruct (rows_at_strike (sell_strike_of price) puts) as [|srow rs];
    [intros [= <-]; left; reflexivity|].
  destruct (rows_at_strike (buy_strike_of (sell_strike_of price)) puts) as [|brow rb];
    [intros [= <-]; left; reflexivity|].
  destruct (net_credit _ _ _) as [credit|]; [|intros [= <-]; left; reflexivity].
  destruct (Qltb (0 # 1) credit) eqn:P; [|intros [= <-]; left; reflexivity].
  destruct (py_add cash _) as [cash'|] eqn:A; [|discriminate].
  destruct (valid_expiries_sound today available valid V target (str_min_In _ _ M))
    as (_ & t & T & _).
  rewrite T. intros [= <-]. right.
  exists latest, price, t, credit, cash'.
  split; [apply (loc_In today); rewrite L; left; reflexivity|].
  split; [exact C|]. split; [apply Qltb_lt; exact P|]. split; [exact A | reflexivity].
Qed.

Lemma entry_step_cases (df : list Row) (today : datetime) (m : Market)
  (cash holdings : pyval) :
  entry_step df today m cash holdings = (cash, holdings, [])
  \/ (truthy holdings = false /\ is_crossover df today = true
      /\ created df today cash (entry_step df today m cash holdings)).
Proof.
  unfold entry_step.
  destruct (truthy holdings); [left; reflexivity|].
  destruct (is_crossover df today); [|left; reflexivity].
  destruct (try_entry df today m cash holdings) as [s|] eqn:T; [|left; reflexivity].
  destruct (try_entry_cases _ _ _ _ _ _ T) as [->|H]; [left; reflexivity|].
  right. auto.
Qed.

Lemma exit_step_cases (today : datetime) (cash holdings : pyval) (s : machine_state) :
  exit_step today cash holdings = Ok s ->
  s = (cash, holdings, [])
  \/ (truthy holdings = true
      /\ exists cash' pnl, s = (cash', PNone, [ExitRecord today pnl])).
Proof.
  unfold exit_step, bind.
  destruct (truthy holdings); [|intros [= <-]; left; reflexivity].
  destruct (getitem "expiry" holdings) as [e|]; [|discriminate].
  destruct (py_date e) as [d|]; [|discriminate].
  destruct (date_geb (dt_date today) d); [|intros [= <-]; left; reflexivity].
  destruct (getitem "credit_received" holdings) as [c|]; [|discriminate].
  destruct (py_sub c _) as [pnl|]; [|discriminate].
  destruct (py_add cash pnl) as [cash'|]; [|discriminate].
  intros [= <-]. right. split; [reflexivity|]. exists cash', pnl. reflexivity.
Qed.






(** On the worked market one bar later there is no fresh crossover: the run
    that starts with the expiring position completes, ends FLAT and writes
    the new cash to the state file. *)
Example expiry_run_ends_flat :
  run_live_options_trader pd_to_datetime ex_open_file ex_later_market
  = mkRunResult (Completed (PFloat (100960 # 1)) PNone)
      (FileJson (PDict [("cash", PFloat (100960 # 1)); ("holdings", PNone)]%string))
      [ExitRecord (ex_time 81) (PFloat (960 # 1))].
Proof. vm_compute. reflexivity. Qed.

(** *** Strikes of a non-negative price *)

Lemma py_round_nonneg (x : Q) : (0 <= x)%Q -> 0 <= py_round x.
Proof.
  intro H. assert (F : 0 <= Qfloor x).
  { change 0 with (Qfloor (inject_Z 0)). apply Qfloor_resp_le. exact H. }
  destruct (py_round_cases x) as [[_ E]|[[_ E]|[_ [E|E]]]]; rewrite E; lia.
Qed.

Lemma py_round_le (x : Q) (k : Z) : (x <= inject_Z k)%Q -> py_round x <= k.
Proof.
  intro H. pose proof (Qfloor_le x) as Hlo.
  assert (F : Qfloor x <= k).
  { rewrite Zle_Qle. apply Qle_trans with x; assumption. }
  destruct (Z.eq_dec (Qfloor x) k) as [E|N].
  - assert (Hx : (x - inject_Z (Qfloor x) <= 0)%Q) by (rewrite E; lra).
    destruct (py_round_cases x) as [[_ R]|[[G _]|[G _]]]; [lia|lra|lra].
  - destruct (py_round_cases x) as [[_ R]|[[_ R]|[_ [R|R]]]]; rewrite R; lia.
Qed.

Lemma sell_strike_nonneg (price : Q) : (0 <= price)%Q -> 0 <= sell_strike_of price.
Proof.
  intro H. unfold sell_strike_of.
  apply Z.mul_nonneg_nonneg; [|lia]. apply py_round_nonneg.
  unfold sell_strike_moneyness.
  apply Qle_shift_div_l; [reflexivity|]. nra.
Qed.

Lemma buy_strike_le_sell (price : Q) :
  (0 <= price)%Q -> buy_strike_of (sell_strike_of price) <= sell_strike_of price.
Proof.
  intro H. pose proof (sell_strike_nonneg price H) as S.
  unfold buy_strike_of. unfold sell_strike_of in *.
  set (k := py_round (price * sell_strike_moneyness / (100 # 1))) in *.
  assert (K : 0 <= k) by lia.
  apply Z.mul_le_mono_nonneg_r; [lia|]. apply py_round_le.
  apply Qle_shift_div_r; [reflexivity|].
  rewrite inject_Z_mult. unfold spread_width_pct.
  assert (K' : (inject_Z 0 <= inject_Z k)%Q) by (rewrite <- Zle_Qle; exact K).
  change (inject_Z 0) with 0%Q in K'.
  change (inject_Z 100) with (100 # 1)%Q. nra.
Qed.

(** ** The single slot *)

Lemma slot_range (v : pyval) : 0 <= slot v <= 1.
Proof. unfold slot. destruct (truthy v); lia. Qed.

(** C6.  With non-negative closing prices, along the trade log of a run the
    number of open positions never leaves {0, 1} and ends at what the single
    slot holds; every position the run creates has credit_received > 0 and
    buy_strike <= sell_strike and is the one held at the end; without an
    entry the slot is carried forward or emptied. *)
Theorem single_position_invariant
  (df : list Row) (today : datetime) (m : Market)
  (cash holdings cash' holdings' : pyval) (log : list TradeRecord) :
  (forall r p, In r df -> close (bar r) = Some p -> (0 <= p)%Q) ->
  transitions df today m cash holdings = Ok (cash', holdings', log) ->
  Forall (fun n => 0 <= n <= 1) (slot holdings :: open_positions (slot holdings) log)
  /\ last (open_positions (slot holdings) log) (slot holdings) = slot holdings'
  /\ (forall t c s b,
        In (EntryRecord t c s b) log ->
        (0 < c)%Q /\ b <= s
        /\ exists expiry, holdings' = new_holdings today expiry s b c)
  /\ ((forall t c s b, ~ In (EntryRecord t c s b) log) ->
      holdings' = holdings \/ holdings' = PNone).
Proof.
  intros Hpos H. unfold transitions, bind in H.
  destruct (exit_step today cash holdings) as [[[c1 h1] l1]|] eqn:X; [|discriminate].
  destruct (entry_step df today m c1 h1) as [[c2 h2] l2] eqn:N.
  injection H as <- <- <-.
  pose proof (slot_range holdings) as R.
  assert (Hnew : forall latest price expiry credit,
             In latest df -> close (bar latest) = Some price -> (0 < credit)%Q ->
             forall t c s b,
               In (EntryRecord t c s b)
                  [EntryRecord today credit (sell_strike_of price)
                               (buy_strike_of (sell_strike_of price))] ->
               (0 < c)%Q /\ b <= s
               /\ exists expiry0,
                    new_holdings today expiry (sell_strike_of price)
                                 (buy_strike_of (sell_strike_of price)) credit
                    = new_holdings today expiry0 s b c).
  { intros latest price expiry credit Hin Hc Hcr t c s b [E|[]].
    injection E as <- <- <- <-. split; [exact Hcr|].
    split; [apply buy_strike_le_sell; eapply Hpos; eassumption|].
    exists expiry. reflexivity. }
  pose proof (entry_step_cases df today m c1 h1) as EC. rewrite N in EC.
  destruct (exit_step_cases _ _ _ _ X) as [E|(T & c' & pnl & E)];
    injection E as -> -> ->;
    (destruct EC
       as [E|(F & _ & latest & price & expiry & credit & c'' & Hin & Hc & Hcr & _ & E)];
     injection E as -> -> ->).
  - (* carried forward *)
    rewrite app_nil_r. cbn.
    split; [constructor; [exact R | constructor]|].
    split; [reflexivity|]. split; [intros t c s b []|]. left. reflexivity.
  - (* entry from a flat start *)
    unfold slot at 1 2 3. rewrite F. cbn.
    split; [repeat constructor; lia|]. split; [reflexivity|].
    split; [intros t c s b Hi; eapply Hnew; eassumption|].
    intro Hno. exfalso. eapply Hno. left. reflexivity.
  - (* expiry exit *)
    unfold slot at 1 2 3. rewrite T. cbn.
    split; [repeat constructor; lia|]. split; [reflexivity|].
    split; [intros t c s b [Hi|[]]; discriminate|]. right. reflexivity.
  - (* expiry exit, then entry *)
    unfold slot at 1 2 3. rewrite T. cbn.
    split; [repeat constructor; lia|]. split; [reflexivity|].
    split; [intros t c s b [Hi|Hi]; [discriminate|]; eapply Hnew; eassumption|].
    intro Hno. exfalso. eapply Hno. right. left. reflexivity.
Qed.

Lemma single_position_invariant_witness :
  Forall (fun n => 0 <= n <= 1) [1; 0; 1]
  /\ last [0; 1] 1 = slot (new_holdings ex_today ex_expiry 48000 47500 (1200 # 1))
  /\ (forall t c s b,
        In (EntryRecord t c s b)
           [ExitRecord ex_today (PFloat (960 # 1));
            EntryRecord ex_today (1200 # 1) 48000 47500] ->
        (0 < c)%Q /\ b <= s
        /\ exists expiry,
             new_holdings ex_today ex_expiry 48000 47500 (1200 # 1)
             = new_holdings ex_today expiry s b c).
Proof.
  destruct (single_position_invariant ex_df ex_today ex_market
              (PFloat (100000 # 1)) ex_open_holdings
              (PFloat (102120 # 1))
              (new_holdings ex_today ex_expiry 48000 47500 (1200 # 1))
              [ExitRecord ex_today (PFloat (960 # 1));
               EntryRecord ex_today (1200 # 1) 48000 47500])
    as (H1 & H2 & H3 & _).
  - intros r p [<-|[<-|[]]] [= <-]; discriminate.
  - reflexivity.
  - split; [exact H1|]. split; [exact H2 | exact H3].
Defined.

(** *** Saving *)

Lemma new_holdings_not_saved (portfolio : dict) (cash : pyval)
  (today expiry : datetime) (s b : Z) (c : Q) :
  save_state (dict_set "holdings" (new_holdings today expiry s b c)
                (dict_set "cash" cash portfolio))
  = (FileInvalid, Raise TypeError).
Proof.
  unfold save_state, state_to_save. rewrite py_get_set_same.
  unfold new_holdings at 1. cbn [truthy iso_if_timestamp dict_get String.eqb Ascii.eqb
                                   Bool.eqb dict_set].
  unfold json_dump.
  rewrite (json_ok_dict_false "holdings"
             (PDict [("entry_date", PStr (isoformat today));
                     ("expiry", PDatetime expiry);
                     ("sell_strike", PInt s);
                     ("buy_strike", PInt b);
                     ("credit_received", PFloat c)]%string)).
  - reflexivity.
  - apply dict_get_set_same.
  - reflexivity.
Qed.

(** C4.  The state that an entry transition leaves cannot be saved: its
    expiry is a [datetime.datetime], which [save_state] does not rewrite, so
    [json.dump] raises TypeError on every such state and leaves a file that
    loads as the default portfolio.  On the worked market the run that opens
    a position ends with that unhandled error. *)
Theorem save_state_rejects_new_position :
  (forall (portfolio : dict) (cash : pyval) (today expiry : datetime)
          (sell_strike buy_strike : Z) (credit_received : Q),
     save_state
       (dict_set "holdings"
          (new_holdings today expiry sell_strike buy_strike credit_received)
          (dict_set "cash" cash portfolio))
     = (FileInvalid, Raise TypeError))
  /\ (forall to_datetime : pyval -> result pyval,
        load_state to_datetime FileInvalid = (default_state, [ErrorLoadingState]))
  /\ run_live_options_trader pd_to_datetime FileAbsent ex_market
     = mkRunResult (Unhandled TypeError) FileInvalid
         [EntryRecord ex_today (1200 # 1) 48000 47500].
Proof.
  split; [intros; apply new_holdings_not_saved|].
  split; [reflexivity|]. vm_compute. reflexivity.
Qed.

(** A position that was loaded from the file and carried forward is saved
    and read back unchanged. *)
Example carried_position_round_trip :
  let state := fst (load_state pd_to_datetime ex_open_file) in
  py_get "holdings" state = ex_open_holdings
  /\ save_state state = (ex_open_file, Ok tt)
  /\ load_state pd_to_datetime (fst (save_state state)) = (state, []).
Proof. vm_compute. repeat split. Qed.

(** *** Days to expiry *)

Lemma strptime_midnight (exp : string) (t : datetime) :
  strptime exp = Ok t -> seconds_of_day t = 0.
Proof.
  unfold strptime. destruct (parse_ymd exp); [|discriminate].
  intros [= <-]. reflexivity.
Qed.

(** C5.  The window is counted from the timestamp of the latest bar: when
    that bar is not at midnight, an expiry qualifies exactly when it lies
    between 1 and max_dte + 1 calendar days ahead.  At 2024-01-11 10:30 the
    expiry of that same day is dropped and the one eight days out is kept. *)
Theorem expiry_window_counted_from_bar_time :
  (forall (today : datetime) (exp : string) (t : datetime),
     strptime exp = Ok t ->
     0 < seconds_of_day today < 86400 ->
     (dte_in_range t today = true
      <-> 1 <= toordinal (dt_date t) - toordinal (dt_date today) <= max_dte + 1))
  /\ valid_expiries ex_today ["2024-01-11"]%string = Ok []
  /\ valid_expiries ex_today ["2024-01-19"]%string = Ok ["2024-01-19"]%string
  /\ toordinal (mkdate 2024 1 11) - toordinal (dt_date ex_today) = 0
  /\ toordinal (mkdate 2024 1 19) - toordinal (dt_date ex_today) = max_dte + 1.
Proof.
  split; [|repeat split].
  intros today exp t P S. apply strptime_midnight in P.
  unfold dte_in_range, timedelta_days, total_seconds. rewrite P.
  set (a := toordinal (dt_date t)). set (b := toordinal (dt_date today)).
  set (s := seconds_of_day today) in *.
  assert (E : (a * 86400 + 0 - (b * 86400 + s)) / 86400 = a - b - 1).
  { symmetry. apply (Z.div_unique _ _ _ (86400 - s)); lia. }
  rewrite E, andb_true_iff, !Z.leb_le. lia.
Qed.

Lemma expiry_window_counted_from_bar_time_witness :
  dte_in_range (mkdatetime (mkdate 2024 1 11) 0 0 0) ex_today = true
  <-> 1 <= toordinal (mkdate 2024 1 11) - toordinal (dt_date ex_today) <= max_dte + 1.
Proof.
  apply (proj1 expiry_window_counted_from_bar_time ex_today "2024-01-11"%string).
  - reflexivity.
  - cbn. lia.
Defined.

(** ** The ledger *)

Section LoadState.

Variable to_datetime : pyval -> result pyval.


Lemma numeric_get (k : string) (d : dict) :
  is_int_or_float (py_get k d) = true -> dict_get k d = Some (py_get k d).
Proof.
  unfold py_get. destruct (dict_get k d); [reflexivity|discriminate].
Qed.

Lemma complete_holdings_dict (v : pyval) :
  complete_holdings v = true -> exists h, v = PDict h.
Proof.
  unfold complete_holdings. destruct v; rewrite ?andb_false_r; try discriminate.
  intros _. eexists. reflexivity.
Qed.

Lemma complete_holdings_set (k : string) (v : pyval) (h : dict) :
  complete_holdings (PDict h) = true ->
  complete_holdings (PDict (dict_set k v h)) = true.
Proof.
  unfold complete_holdings. rewrite !andb_true_iff. intros [_ H]. split.
  - cbn. pose proof (dict_set_not_nil k v h). destruct (dict_set k v h); congruence.
  - rewrite forallb_forall in *. intros x Hx. apply has_key_set. apply H. exact Hx.
Qed.

Lemma missing_field_incomplete (h : dict) (k : string) :
  In k required_fields -> dict_get k h = None -> complete_holdings (PDict h) = false.
Proof.
  intros Hin Hk. unfold complete_holdings.
  destruct (forallb (fun k0 => has_key k0 h) required_fields) eqn:F;
    [|apply andb_false_r].
  rewrite forallb_forall in F. specialize (F k Hin).
  unfold has_key in F. rewrite Hk in F. discriminate.
Qed.

(** The final step of [load_state], lines 56-57. *)
Lemma cash_check (state state1 : dict) (v : pyval) :
  state1 = dict_set "holdings" v state ->
  let st := if is_int_or_float (py_get "cash" state1) then state1
            else dict_set "cash" (PFloat (100000 # 1)) state1 in
  cash_rule state st /\ py_get "holdings" st = v
  /\ exists cash, dict_get "cash" st = Some cash /\ is_int_or_float cash = true.
Proof.
  intros -> st. unfold cash_rule.
  assert (C : py_get "cash" (dict_set "holdings" v state) = py_get "cash" state)
    by (apply py_get_set_other; discriminate).
  subst st. rewrite C.
  destruct (is_int_or_float (py_get "cash" state)) eqn:N.
  - rewrite C, py_get_set_same. split; [reflexivity|]. split; [reflexivity|].
    exists (py_get "cash" state). split; [|exact N].
    rewrite dict_get_set_other by discriminate. apply numeric_get. exact N.
  - rewrite py_get_set_same, py_get_set_other, py_get_set_same by discriminate.
    split; [reflexivity|]. split; [reflexivity|].
    exists (PFloat (100000 # 1)). split; [apply dict_get_set_same | reflexivity].
Qed.

Lemma load_body_incomplete (state : dict) :
  complete_holdings (py_get "holdings" state) = false ->
  exists st,
    load_body to_datetime (PDict state)
    = Ok (st, match py_get "holdings" state with
              | PNone => []
              | _ => [WarnIncompleteHoldings]
              end)
    /\ cash_rule state st /\ py_get "holdings" st = PNone
    /\ exists cash, dict_get "cash" st = Some cash /\ is_int_or_float cash = true.
Proof.
  intro H. unfold load_body. rewrite H. cbn [bind].
  eexists. split; [reflexivity|]. apply cash_check. reflexivity.
Qed.

Lemma load_body_complete (state h : dict) (e x e' x' : pyval) :
  py_get "holdings" state = PDict h ->
  complete_holdings (PDict h) = true ->
  getitem "entry_date" (PDict h) = Ok e -> to_datetime e = Ok e' ->
  getitem "expiry" (PDict h) = Ok x -> to_datetime x = Ok x' ->
  exists st,
    load_body to_datetime (PDict state) = Ok (st, [])
    /\ cash_rule state st
    /\ py_get "holdings" st
       = PDict (dict_set "expiry" x' (dict_set "entry_date" e' h))
    /\ exists cash, dict_get "cash" st = Some cash /\ is_int_or_float cash = true.
Proof.
  intros Hh Hc He He' Hx Hx'. unfold load_body. rewrite Hh, Hc.
  unfold bind at 2. rewrite He. unfold bind at 2. rewrite He'.
  unfold bind at 2. rewrite Hx. unfold bind at 2. rewrite Hx'.
  cbn [bind]. eexists. split; [reflexivity|]. apply cash_check. reflexivity.
Qed.

Lemma load_body_bad_date (state h : dict) :
  py_get "holdings" state = PDict h ->
  complete_holdings (PDict h) = true ->
  (forall e, getitem "entry_date" (PDict h) = Ok e -> exists err, to_datetime e = Raise err)
  \/ (forall x, getitem "expiry" (PDict h) = Ok x -> exists err, to_datetime x = Raise err) ->
  exists err, load_body to_datetime (PDict state) = Raise err.
Proof.
  intros Hh Hc Hbad. unfold load_body. rewrite Hh, Hc. unfold bind.
  destruct (getitem "entry_date" (PDict h)) as [e|err] eqn:He; [|eexists; reflexivity].
  destruct (to_datetime e) as [e'|err] eqn:He'; [|eexists; reflexivity].
  destruct (getitem "expiry" (PDict h)) as [x|err] eqn:Hx; [|eexists; reflexivity].
  destruct (to_datetime x) as [x'|err] eqn:Hx'; [|eexists; reflexivity].
  destruct Hbad as [B|B].
  - destruct (B e eq_refl) as (err & E). congruence.
  - destruct (B x eq_refl) as (err & E). congruence.
Qed.

(** Whatever the file holds, the state that [load_state] returns has a
    numeric [cash] and holdings that are [None] or carry every required
    field. *)
Lemma load_state_usable (f : file_content) :
  exists cash holdings,
    getitem "cash" (PDict (fst (load_state to_datetime f))) = Ok cash
    /\ is_int_or_float cash = true
    /\ getitem "holdings" (PDict (fst (load_state to_datetime f))) = Ok holdings
    /\ (holdings = PNone \/ complete_holdings holdings = true).
Proof.
  assert (D : exists cash holdings,
             getitem "cash" (PDict default_state) = Ok cash
             /\ is_int_or_float cash = true
             /\ getitem "holdings" (PDict default_state) = Ok holdings
             /\ (holdings = PNone \/ complete_holdings holdings = true)).
  { exists (PFloat (100000 # 1)), PNone. repeat split; auto. }
  destruct f as [| | |loaded]; try exact D.
  cbn [load_state].
  destruct (load_body to_datetime loaded) as [[st msgs]|err] eqn:L; [|exact D].
  cbn [fst]. destruct loaded; try discriminate L. rename d into state.
  destruct (complete_holdings (py_get "holdings" state)) eqn:C.
  - destruct (complete_holdings_dict _ C) as (h & Hh). rewrite Hh in C.
    unfold load_body in L. rewrite Hh, C in L. unfold bind in L.
    destruct (getitem "entry_date" (PDict h)) as [e|] eqn:He; [|discriminate].
    destruct (to_datetime e) as [e'|] eqn:He'; [|discriminate].
    destruct (getitem "expiry" (PDict h)) as [x|] eqn:Hx; [|discriminate].
    destruct (to_datetime x) as [x'|] eqn:Hx'; [|discriminate].
    destruct (load_body_complete state h e x e' x' Hh C He He' Hx Hx')
      as (st' & L' & _ & Hhold & cash & Hcash & Hnum).
    unfold load_body in L'. rewrite Hh, C in L'. unfold bind in L'.
    rewrite He, He', Hx, Hx' in L'. rewrite L' in L. injection L as <- <-.
    exists cash, (PDict (dict_set "expiry" x' (dict_set "entry_date" e' h))).
    unfold getitem. rewrite Hcash. split; [reflexivity|]. split; [exact Hnum|].
    unfold py_get in Hhold.
    destruct (dict_get "holdings" st') as [v|]; [|discriminate]. subst v.
    split; [reflexivity|]. right. apply complete_holdings_set, complete_holdings_set, C.
  - destruct (load_body_incomplete state C) as (st' & L' & _ & Hhold & cash & Hcash & Hnum).
    rewrite L' in L. injection L as <- <-.
    exists cash, PNone. unfold getitem. rewrite Hcash.
    split; [reflexivity|]. split; [exact Hnum|].
    split; [|left; reflexivity].
    unfold load_body in L'. rewrite C in L'. cbn [bind] in L'.
    injection L' as L'. rewrite <- L'.
    destruct (is_int_or_float _);
      rewrite ?(dict_get_set_other "holdings" "cash") by discriminate;
      rewrite dict_get_set_same; reflexivity.
Qed.

End LoadState.

(** C9, as amended.  [load_state] returns a usable state for every file: a
    missing or empty file gives the default portfolio; a holdings record that
    lacks a required field is dropped with a warning; cash is kept when it is
    an [int] or [float] and defaulted otherwise, both when holdings are
    dropped and when they are kept with converted dates; and when a date of a
    complete holdings record fails to convert, the whole state, cash
    included, is the default one. *)
Theorem load_state_tolerates_corruption (to_datetime : pyval -> result pyval) :
  load_state to_datetime FileAbsent = (default_state, [])
  /\ load_state to_datetime FileEmpty = (default_state, [])
  /\ default_state = [("cash", PFloat (100000 # 1)); ("holdings", PNone)]%string
  /\ (forall f : file_content,
        exists cash holdings,
          getitem "cash" (PDict (fst (load_state to_datetime f))) = Ok cash
          /\ is_int_or_float cash = true
          /\ getitem "holdings" (PDict (fst (load_state to_datetime f))) = Ok holdings
          /\ (holdings = PNone \/ complete_holdings holdings = true))
  /\ (forall (state h : dict) (k : string),
        py_get "holdings" state = PDict h ->
        In k required_fields ->
        dict_get k h = None ->
        exists st,
          load_state to_datetime (FileJson (PDict state))
          = (st, [WarnIncompleteHoldings])
          /\ py_get "holdings" st = PNone
          /\ cash_rule state st)
  /\ (forall (state h : dict) (e x e' x' : pyval),
        py_get "holdings" state = PDict h ->
        complete_holdings (PDict h) = true ->
        getitem "entry_date" (PDict h) = Ok e -> to_datetime e = Ok e' ->
        getitem "expiry" (PDict h) = Ok x -> to_datetime x = Ok x' ->
        exists st,
          load_state to_datetime (FileJson (PDict state)) = (st, [])
          /\ py_get "holdings" st
             = PDict (dict_set "expiry" x' (dict_set "entry_date" e' h))
          /\ cash_rule state st)
  /\ (forall (state h : dict),
        py_get "holdings" state = PDict h ->
        complete_holdings (PDict h) = true ->
        (forall e, getitem "entry_date" (PDict h) = Ok e ->
                   exists err, to_datetime e = Raise err)
        \/ (forall x, getitem "expiry" (PDict h) = Ok x ->
                      exists err, to_datetime x = Raise err) ->
        load_state to_datetime (FileJson (PDict state))
        = (default_state, [ErrorLoadingState])).
Proof.
  split; [reflexivity|]. split; [reflexivity|]. split; [reflexivity|].
  split; [apply load_state_usable|].
  split; [|split].
  - intros state h k Hh Hin Hk.
    pose proof (missing_field_incomplete h k Hin Hk) as C. rewrite <- Hh in C.
    destruct (load_body_incomplete to_datetime state C) as (st & L & R & H & _).
    exists st. cbn [load_state]. rewrite L, Hh. auto.
  - intros state h e x e' x' Hh C He He' Hx Hx'.
    destruct (load_body_complete to_datetime state h e x e' x' Hh C He He' Hx Hx')
      as (st & L & R & H & _).
    exists st. cbn [load_state]. rewrite L. auto.
  - intros state h Hh C B.
    destruct (load_body_bad_date to_datetime state h Hh C B) as (err & L).
    cbn [load_state]. rewrite L. reflexivity.
Qed.

Lemma load_state_tolerates_corruption_witness :
  exists st,
    load_state pd_to_datetime
      (FileJson (PDict [("cash", PInt 5000);
                        ("holdings", PDict [("entry_date", PStr "2024-01-04T10:30:00");
                                            ("expiry", PStr "2024-01-11T00:00:00");
                                            ("sell_strike", PInt 47000);
                                            ("buy_strike", PInt 46500)])]%string))
    = (st, [WarnIncompleteHoldings])
    /\ py_get "holdings" st = PNone
    /\ py_get "cash" st = PInt 5000.
Proof.
  destruct (load_state_tolerates_corruption pd_to_datetime)
    as (_ & _ & _ & _ & H & _).
  destruct (H [("cash", PInt 5000);
               ("holdings", PDict [("entry_date", PStr "2024-01-04T10:30:00");
                                   ("expiry", PStr "2024-01-11T00:00:00");
                                   ("sell_strike", PInt 47000);
                                   ("buy_strike", PInt 46500)])]%string
              [("entry_date", PStr "2024-01-04T10:30:00");
               ("expiry", PStr "2024-01-11T00:00:00");
               ("sell_strike", PInt 47000);
               ("buy_strike", PInt 46500)]%string
              "credit_received"%string eq_refl)
    as (st & H1 & H2 & H3).
  - do 4 right. left. reflexivity.
  - reflexivity.
  - exists st. split; [exact H1|]. split; [exact H2 | exact H3].
Defined.

(** C9, counterexample.  The file holds a numeric cash value and complete
    holdings whose dates are no dates: the loaded cash is the default. *)
Lemma numeric_cash_lost_on_bad_dates :
  exists state,
    ex_bad_dates_file = FileJson (PDict state)
    /\ py_get "cash" state = PInt 5000
    /\ is_int_or_float (py_get "cash" state) = true
    /\ load_state pd_to_datetime ex_bad_dates_file
       = (default_state, [ErrorLoadingState])
    /\ py_get "cash" (fst (load_state pd_to_datetime ex_bad_dates_file))
       = PFloat (100000 # 1)
    /\ PFloat (100000 # 1) <> PInt 5000.
Proof.
  eexists. split; [reflexivity|]. repeat split. discriminate.
Qed.

(** *** A history shorter than the long window *)

Lemma insert_by_length {A : Type} (key : A -> datetime) (x : A) (l : list A) :
  List.length (insert_by key x l) = S (List.length l).
Proof.
  induction l as [|y r IH]; [reflexivity|].
  cbn [insert_by]. destruct (datetime_leb (key x) (key y)); cbn; auto.
Qed.

Lemma sort_by_length {A : Type} (key : A -> datetime) (l : list A) :
  List.length (sort_by key l) = List.length l.
Proof.
  induction l as [|y r IH]; [reflexivity|].
  unfold sort_by in *. cbn [fold_right]. rewrite insert_by_length, IH. reflexivity.
Qed.

Lemma rolling_mean_short (window : nat) (col : list (option Q)) :
  (List.length col < window)%nat ->
  forall c, In c (rolling_mean window col) -> c = None.
Proof.
  intros H c Hin. unfold rolling_mean in Hin. apply in_map_iff in Hin.
  destruct Hin as (i & <- & _). unfold window_mean.
  assert (L : (List.length (firstn (S i) col) <? window)%nat = true).
  { apply Nat.ltb_lt. rewrite length_firstn. lia. }
  rewrite L. reflexivity.
Qed.

Lemma attach_long_ma (merged : list (Bar * option Q)) : forall s l r,
  In r (attach merged s l) -> In (long_ma r) l.
Proof.
  induction merged as [|[b v] rest IH]; intros s l r H; [destruct H|].
  destruct s as [|x rs]; [destruct H|]. destruct l as [|y rl]; [destruct H|].
  cbn [attach] in H. destruct H as [<-|H]; [left; reflexivity|].
  right. eapply IH. exact H.
Qed.

Lemma dropna_short (merged : list (Bar * option Q)) :
  (List.length merged < long_ma_period)%nat ->
  dropna (add_moving_averages merged) = [].
Proof.
  intro H. unfold dropna.
  destruct (filter complete (add_moving_averages merged)) as [|r rest] eqn:F;
    [reflexivity|].
  assert (Hin : In r (filter complete (add_moving_averages merged)))
    by (rewrite F; left; reflexivity).
  apply filter_In in Hin. destruct Hin as [Hin C].
  apply attach_long_ma in Hin.
  apply rolling_mean_short in Hin; [|rewrite length_map; exact H].
  unfold complete in C. rewrite Hin in C. cbn in C.
  rewrite !andb_false_r in C. discriminate.
Qed.

(** C10.  When the downloaded series is not empty but shorter than the long
    window, nothing survives the truncation; the run ends with an unhandled
    IndexError at line 124, the state file is as it was and nothing is
    logged or reported. *)
Theorem short_history_stops_the_run (to_datetime : pyval -> result pyval)
  (f : file_content) (m : Market) (bars : list Bar) (vix : list VixBar) :
  download_underlying m = Ok bars ->
  bars <> [] ->
  (List.length bars < long_ma_period)%nat ->
  download_vix m = Ok vix ->
  vix <> [] ->
  dropna (add_moving_averages (merge_asof (sort_index bars) vix)) = []
  /\ run_live_options_trader to_datetime f m
     = mkRunResult (Unhandled IndexError) f [].
Proof.
  intros Hu Hne Hlen Hv Hvne.
  assert (D : dropna (add_moving_averages (merge_asof (sort_index bars) vix)) = []).
  { apply dropna_short. unfold merge_asof, sort_index.
    rewrite length_map, sort_by_length. exact Hlen. }
  split; [exact D|].
  unfold run_live_options_trader.
  destruct (load_state_usable to_datetime f) as (cash & holdings & -> & _ & -> & _).
  unfold fetch_market_data, bind. rewrite Hu, Hv.
  destruct bars as [|b bs]; [contradiction|].
  destruct vix as [|v vs]; [contradiction|].
  rewrite D. reflexivity.
Qed.

Lemma short_history_stops_the_run_witness :
  run_live_options_trader pd_to_datetime ex_open_file ex_short_market
  = mkRunResult (Unhandled IndexError) ex_open_file [].
Proof.
  apply (short_history_stops_the_run pd_to_datetime ex_open_file ex_short_market
           (firstn 79 ex_bars) ex_vix).
  - reflexivity.
  - discriminate.
  - vm_compute. lia.
  - reflexivity.
  - discriminate.
Defined.

(** * Further properties *)

(** ** The trade log *)

Lemma write_row_at_end (r : xl_row) (s : worksheet) :
  write_row (List.length s) r s = s ++ [r].
Proof.
  induction s as [|old rest IH]; [reflexivity|].
  cbn [List.length write_row app]. rewrite IH. reflexivity.
Qed.

Lemma max_row_nonempty (s : worksheet) : s <> [] -> max_row s = List.length s.
Proof.
  intro H. unfold max_row. destruct s; [contradiction|]. cbn [List.length]. lia.
Qed.

Lemma sheet_get_set_same (name : string) (s : worksheet) (book : workbook) :
  sheet_get name (sheet_set name s book) = Some s.
Proof.
  induction book as [|[n s'] rest IH]; cbn.
  - rewrite String.eqb_refl. reflexivity.
  - destruct (String.eqb name n) eqn:E; cbn; rewrite ?String.eqb_refl, ?E; auto.
Qed.

Lemma sheet_get_set_other (name other : string) (s : worksheet) (book : workbook) :
  other <> name -> sheet_get other (sheet_set name s book) = sheet_get other book.
Proof.
  intro N. apply String.eqb_neq in N.
  induction book as [|[n s'] rest IH]; cbn.
  - rewrite N. reflexivity.
  - destruct (String.eqb name n) eqn:E; cbn.
    + apply String.eqb_eq in E. subst n. rewrite N. reflexivity.
    + rewrite IH. reflexivity.
Qed.

Lemma sheet_set_set (name : string) (s s' : worksheet) (book : workbook) :
  sheet_set name s (sheet_set name s' book) = sheet_set name s book.
Proof.
  induction book as [|[n s0] rest IH]; cbn.
  - rewrite String.eqb_refl. reflexivity.
  - destruct (String.eqb name n) eqn:E; cbn; rewrite ?String.eqb_refl, ?E; congruence.
Qed.

(** X14.  On an existing log whose Sheet1 holds at least one row,
    [log_trade] keeps every row of the sheet, adds the values of the record
    as one row directly below them and writes no header; the other sheets of
    the workbook are as they were. *)
Theorem log_trade_appends_one_row
  (book : workbook) (s : worksheet) (trade_record : dict) :
  sheet_get "Sheet1" book = Some s ->
  s <> [] ->
  sheet_get "Sheet1" (log_trade (Some book) trade_record)
  = Some (s ++ [values_of trade_record])
  /\ (forall other : string,
        other <> "Sheet1"%string ->
        sheet_get other (log_trade (Some book) trade_record) = sheet_get other book).
Proof.
  intros G N. unfold log_trade. rewrite G. unfold to_excel.
  rewrite (max_row_nonempty s N), write_row_at_end. split.
  - apply sheet_get_set_same.
  - intros other H. apply sheet_get_set_other. exact H.
Qed.

Lemma log_trade_appends_one_row_witness :
  sheet_get "Sheet1"
    (log_trade (Some [("Sheet1"%string, [[PStr "ExitDate"; PStr "PnL"; PStr "Reason"]])])
               (record_dict (EntryRecord ex_today (1200 # 1) 48000 47500)))
  = Some ([[PStr "ExitDate"; PStr "PnL"; PStr "Reason"]]
          ++ [[PTimestamp ex_today; PFloat (1200 # 1); PInt 48000; PInt 47500]]).
Proof.
  refine (proj1 (log_trade_appends_one_row
                   [("Sheet1"%string, [[PStr "ExitDate"; PStr "PnL"; PStr "Reason"]])]
                   [[PStr "ExitDate"; PStr "PnL"; PStr "Reason"]]
                   (record_dict (EntryRecord ex_today (1200 # 1) 48000 47500))
                   eq_refl _)).
  discriminate.
Defined.

Lemma log_all_existing (log : list TradeRecord) : forall (book : workbook) (s : worksheet),
  sheet_get "Sheet1" book = Some s ->
  s <> [] ->
  log_all (Some book) log
  = Some (match log with
          | [] => book
          | _ => sheet_set "Sheet1"
                   (s ++ map (fun r => values_of (record_dict r)) log) book
          end).
Proof.
  induction log as [|r rest IH]; intros book s G N; [reflexivity|].
  unfold log_all in *. cbn [fold_left].
  assert (E : log_trade (Some book) (record_dict r)
              = sheet_set "Sheet1" (s ++ [values_of (record_dict r)]) book).
  { unfold log_trade. rewrite G. unfold to_excel.
    rewrite (max_row_nonempty s N), write_row_at_end. reflexivity. }
  rewrite E.
  rewrite (IH _ (s ++ [values_of (record_dict r)])).
  - destruct rest as [|r' rest']; [reflexivity|].
    rewrite sheet_set_set, <- app_assoc. reflexivity.
  - apply sheet_get_set_same.
  - destruct s; discriminate.
Qed.

(** X15.  Starting without a log file, the records of one or several
    runs leave a single sheet: the column names of the first record as the
    only header row, then one row of values per record, in the order of the
    calls; a later record with other columns is written under the header of
    the first. *)
Theorem log_has_header_of_first_record (r : TradeRecord) (rest : list TradeRecord) :
  log_all None (r :: rest)
  = Some [("Sheet1"%string,
           columns_of (record_dict r)
           :: map (fun x => values_of (record_dict x)) (r :: rest))].
Proof.
  unfold log_all. cbn [fold_left]. fold (log_all (Some (log_trade None (record_dict r))) rest).
  rewrite (log_all_existing rest _
             [columns_of (record_dict r); values_of (record_dict r)]).
  - destruct rest; reflexivity.
  - reflexivity.
  - discriminate.
Qed.

(** X16.  The two edge cases of the start row: on a log whose Sheet1
    holds no cell the record lands in the second row, below an empty one; on
    a log without Sheet1 the sheet is created with the record, headerless, in
    its first row. *)
Theorem log_trade_on_blank_sheet (book : workbook) (trade_record : dict) :
  (sheet_get "Sheet1" book = Some [] ->
   sheet_get "Sheet1" (log_trade (Some book) trade_record)
   = Some [[]; values_of trade_record])
  /\ (sheet_get "Sheet1" book = None ->
      sheet_get "Sheet1" (log_trade (Some book) trade_record)
      = Some [values_of trade_record]).
Proof.
  split; intro G; unfold log_trade; rewrite G; apply sheet_get_set_same.
Qed.

Lemma log_trade_on_blank_sheet_witness :
  sheet_get "Sheet1"
    (log_trade (Some [("Sheet1"%string, [])])
               (record_dict (ExitRecord ex_today (PFloat (960 # 1)))))
  = Some [[]; [PTimestamp ex_today; PFloat (960 # 1); PStr "Expiry"]].
Proof.
  apply (proj1 (log_trade_on_blank_sheet [("Sheet1"%string, [])]
                  (record_dict (ExitRecord ex_today (PFloat (960 # 1)))))).
  reflexivity.
Defined.

(** ** Runs that change nothing *)

(** X1.  When the underlying or the volatility download raises or comes
    back empty, the run stops at line 118: no transition is evaluated, the
    state file is as it was and nothing is logged. *)
Theorem market_failure_changes_nothing (to_datetime : pyval -> result pyval)
  (f : file_content) (m : Market) :
  (exists e, download_underlying m = Raise e)
  \/ download_underlying m = Ok []
  \/ (exists e, download_vix m = Raise e)
  \/ download_vix m = Ok [] ->
  run_live_options_trader to_datetime f m = mkRunResult MarketDataError f [].
Proof.
  intro H. unfold run_live_options_trader.
  destruct (load_state_usable to_datetime f) as (cash & holdings & -> & _ & -> & _).
  assert (F : exists e, fetch_market_data m = Raise e).
  { unfold fetch_market_data, bind.
    destruct H as [(e & ->)|[->|[(e & H)|H]]]; try (eexists; reflexivity);
      destruct (download_underlying m) as [[|b bs]|e']; try (eexists; reflexivity);
      rewrite H; eexists; reflexivity. }
  destruct F as (e & ->). reflexivity.
Qed.

Lemma market_failure_changes_nothing_witness :
  run_live_options_trader pd_to_datetime ex_open_file ex_no_vix_market
  = mkRunResult MarketDataError ex_open_file [].
Proof.
  apply market_failure_changes_nothing. right. right. right. reflexivity.
Defined.


(** X2.  An open position whose expiry date is after the date of the latest
    bar is carried forward: whatever the snapshot and the market, cash and
    holdings are unchanged and nothing is logged. *)
Theorem unexpired_position_is_carried
  (df : list Row) (today : datetime) (m : Market)
  (cash holdings expiry : pyval) (d : date) :
  truthy holdings = true ->
  getitem "expiry" holdings = Ok expiry ->
  py_date expiry = Ok d ->
  date_geb (dt_date today) d = false ->
  exit_step today cash holdings = Ok (cash, holdings, [])
  /\ transitions df today m cash holdings = Ok (cash, holdings, []).
Proof.
  intros T E D G.
  assert (X : exit_step today cash holdings = Ok (cash, holdings, []))
    by (unfold exit_step, bind; rewrite T, E, D, G; reflexivity).
  split; [exact X|].
  unfold transitions, bind. rewrite X. unfold entry_step. rewrite T. reflexivity.
Qed.

Lemma unexpired_position_is_carried_witness :
  transitions ex_df (mkdatetime (mkdate 2024 1 10) 15 15 0) ex_market
    (PFloat (100000 # 1)) ex_open_holdings
  = Ok (PFloat (100000 # 1), ex_open_holdings, []).
Proof.
  apply (proj2 (unexpired_position_is_carried ex_df
                  (mkdatetime (mkdate 2024 1 10) 15 15 0) ex_market
                  (PFloat (100000 # 1)) ex_open_holdings
                  (PTimestamp (mkdatetime (mkdate 2024 1 11) 0 0 0))
                  (mkdate 2024 1 11) eq_refl eq_refl eq_refl eq_refl)).
Defined.

(** *** Exceptions on the entry path *)

Lemma valid_expiries_raises (today : datetime) (available : list string)
  (exp : string) (e : exn) :
  In exp available -> strptime exp = Raise e ->
  exists e', valid_expiries today available = Raise e'.
Proof.
  induction available as [|x rest IH]; intros Hin P; [destruct Hin|].
  cbn [valid_expiries]. unfold bind.
  destruct (strptime x) as [t|e0] eqn:S; [|eexists; reflexivity].
  destruct Hin as [->|Hin]; [congruence|].
  destruct (IH Hin P) as (e' & ->). eexists. reflexivity.
Qed.

Lemma transitions_without_entry (df : list Row) (today : datetime) (m : Market) :
  (forall cash holdings, entry_step df today m cash holdings = (cash, holdings, [])) ->
  forall cash holdings,
    transitions df today m cash holdings = exit_step today cash holdings.
Proof.
  intros H cash holdings. unfold transitions, bind.
  destruct (exit_step today cash holdings) as [[[c1 h1] l1]|e]; [|reflexivity].
  rewrite H, app_nil_r. reflexivity.
Qed.

(** X3.  An exception on the entry path is swallowed: when the list of
    expiries cannot be fetched, when one of the offered expiries is not a
    date (whatever the others are), or when the chain of the chosen expiry
    cannot be fetched, no position is opened and the run goes on with what
    the expiry exit left. *)
Theorem entry_failure_is_swallowed (df : list Row) (today : datetime) (m : Market) :
  (exists e, ticker_options m = Raise e)
  \/ (exists available exp e,
        ticker_options m = Ok available /\ In exp available /\ strptime exp = Raise e)
  \/ (exists available valid target e,
        ticker_options m = Ok available
        /\ valid_expiries today available = Ok valid
        /\ str_min valid = Some target
        /\ option_chain m target = Raise e) ->
  forall cash holdings : pyval,
    entry_step df today m cash holdings = (cash, holdings, [])
    /\ transitions df today m cash holdings = exit_step today cash holdings.
Proof.
  intro H.
  assert (N : forall cash holdings,
             entry_step df today m cash holdings = (cash, holdings, [])).
  { intros cash holdings. unfold entry_step.
    destruct (truthy holdings); [reflexivity|].
    destruct (is_crossover df today); [|reflexivity].
    assert (R : exists e, try_entry df today m cash holdings = Raise e).
    { unfold try_entry, bind.
      destruct H as [(e & ->)|[(av & exp & e & -> & Hin & P)|(av & v & t & e & -> & -> & -> & ->)]].
      - eexists. reflexivity.
      - destruct (valid_expiries_raises today av exp e Hin P) as (e' & ->).
        eexists. reflexivity.
      - eexists. reflexivity. }
    destruct R as (e & ->). reflexivity. }
  intros cash holdings. split; [apply N|]. apply transitions_without_entry. exact N.
Qed.

Lemma entry_failure_is_swallowed_witness :
  transitions ex_df ex_today ex_bad_expiry_market (PFloat (100000 # 1)) PNone
  = exit_step ex_today (PFloat (100000 # 1)) PNone.
Proof.
  apply entry_failure_is_swallowed. right. left.
  exists ["2024-01-17"; "17 Jan 2024"]%string, "17 Jan 2024"%string, ValueError.
  split; [reflexivity|]. split; [right; left; reflexivity | reflexivity].
Defined.

Lemma net_credit_same_row (p : option Q) (mult : Q) :
  match net_credit p p mult with
  | Some c => Qltb (0 # 1) c = false
  | None => True
  end.
Proof.
  unfold net_credit. destruct p as [s|]; [|exact I].
  apply Qltb_ge.
  assert (E : ((s - s) * inject_Z lot_size * mult == 0)%Q) by ring.
  rewrite E. apply Qle_refl.
Qed.

(** X4.  Without an exception the entry still opens nothing when no
    offered expiry lies in the window, when one of the two strikes is absent
    from the chain, when both strikes coincide, or when the net credit is NaN
    or not positive: cash and holdings stay as the expiry exit left them. *)
Theorem entry_needs_a_paying_spread
  (df : list Row) (today : datetime) (m : Market) (available valid : list string) :
  ticker_options m = Ok available ->
  valid_expiries today available = Ok valid ->
  valid = []
  \/ (exists target puts latest price,
        str_min valid = Some target
        /\ option_chain m target = Ok puts
        /\ loc today df = [latest]
        /\ close (bar latest) = Some price
        /\ (rows_at_strike (sell_strike_of price) puts = []
            \/ rows_at_strike (buy_strike_of (sell_strike_of price)) puts = []
            \/ buy_strike_of (sell_strike_of price) = sell_strike_of price
            \/ exists srow rs brow rb,
                 rows_at_strike (sell_strike_of price) puts = srow :: rs
                 /\ rows_at_strike (buy_strike_of (sell_strike_of price)) puts = brow :: rb
                 /\ (net_credit (lastPrice srow) (lastPrice brow)
                                (position_multiplier (vix_close latest)) = None
                     \/ exists c,
                          net_credit (lastPrice srow) (lastPrice brow)
                                     (position_multiplier (vix_close latest)) = Some c
                          /\ (c <= 0)%Q))) ->
  forall cash holdings : pyval,
    entry_step df today m cash holdings = (cash, holdings, [])
    /\ transitions df today m cash holdings = exit_step today cash holdings.
Proof.
  intros Ho Hv H.
  assert (N : forall cash holdings,
             entry_step df today m cash holdings = (cash, holdings, [])).
  { intros cash holdings. unfold entry_step.
    destruct (truthy holdings); [reflexivity|].
    destruct (is_crossover df today); [|reflexivity].
    assert (R : try_entry df today m cash holdings = Ok (cash, holdings, [])).
    { unfold try_entry, bind. rewrite Ho, Hv.
      destruct H as [->|(target & puts & latest & price & -> & -> & -> & -> & H)];
        [reflexivity|].
      destruct H as [->|[H|[H|(srow & rs & brow & rb & -> & -> & H)]]].
      - reflexivity.
      - rewrite H. destruct (rows_at_strike (sell_strike_of price) puts); reflexivity.
      - rewrite H.
        destruct (rows_at_strike (sell_strike_of price) puts) as [|srow rs];
          [reflexivity|].
        pose proof (net_credit_same_row (lastPrice srow)
                      (position_multiplier (vix_close latest))) as Z.
        destruct (net_credit _ _ _); [rewrite Z|]; reflexivity.
      - destruct H as [->|(c & -> & Hc)]; [reflexivity|].
        apply Qltb_ge in Hc. rewrite Hc. reflexivity. }
    rewrite R. reflexivity. }
  intros cash holdings. split; [apply N|]. apply transitions_without_entry. exact N.
Qed.

Lemma entry_needs_a_paying_spread_witness :
  transitions ex_df ex_today ex_flat_chain_market (PFloat (100000 # 1)) PNone
  = exit_step ex_today (PFloat (100000 # 1)) PNone.
Proof.
  apply (entry_needs_a_paying_spread ex_df ex_today ex_flat_chain_market
           ["2024-01-11"; "2024-01-17"; "2024-01-25"]%string ["2024-01-17"]%string
           eq_refl eq_refl).
  right.
  exists "2024-01-17"%string, ex_flat_puts,
         (mkRow (ex_bar ex_today (49000 # 1))
                (Some (15 # 1)) (Some (809000 # 20)) (Some (3209000 # 80))),
         (49000 # 1)%Q.
  repeat (split; [reflexivity|]).
  right. right. right.
  exists (mkPutQuote (Some (48000 # 1)) (Some (40 # 1))), [],
         (mkPutQuote (Some (47500 # 1)) (Some (40 # 1))), [].
  repeat (split; [reflexivity|]).
  right. exists (0 # 1)%Q. split; [reflexivity | discriminate].
Defined.

(** ** Truncation *)

Lemma attach_length (merged : list (Bar * option Q)) : forall s l,
  (List.length (attach merged s l) <= List.length merged)%nat.
Proof.
  induction merged as [|[b v] rest IH]; intros s l; [cbn; lia|].
  destruct s as [|x rs]; [cbn; lia|]. destruct l as [|y rl]; [cbn; lia|].
  cbn [attach List.length]. specialize (IH rs rl). lia.
Qed.

Lemma firstn_attach_long_ma (k : nat) : forall (merged : list (Bar * option Q)) s l r,
  In r (firstn k (attach merged s l)) -> In (long_ma r) (firstn k l).
Proof.
  induction k as [|k IH]; intros merged s l r H; [destruct H|].
  destruct merged as [|[b v] rest]; [destruct H|].
  destruct s as [|x rs]; [destruct H|]. destruct l as [|y rl]; [destruct H|].
  cbn [attach firstn] in *. destruct H as [<-|H]; [left; reflexivity|].
  right. eapply IH. exact H.
Qed.

Lemma firstn_seq_bound (k : nat) : forall a n i,
  In i (firstn k (seq a n)) -> (a <= i < a + k)%nat.
Proof.
  induction k as [|k IH]; intros a n i H; [destruct H|].
  destruct n as [|n]; [destruct H|].
  cbn [seq firstn] in H. destruct H as [<-|H]; [lia|].
  apply IH in H. lia.
Qed.

Lemma rolling_mean_head (window : nat) (col : list (option Q)) (c : option Q) :
  In c (firstn (window - 1) (rolling_mean window col)) -> c = None.
Proof.
  unfold rolling_mean. rewrite firstn_map. intro H.
  apply in_map_iff in H. destruct H as (i & <- & Hi). apply firstn_seq_bound in Hi.
  unfold window_mean.
  assert (L : (List.length (firstn (S i) col) <? window)%nat = true).
  { apply Nat.ltb_lt. rewrite length_firstn. lia. }
  rewrite L. reflexivity.
Qed.

Lemma dropna_skips_head (merged : list (Bar * option Q)) :
  dropna (add_moving_averages merged)
  = filter complete (skipn (long_ma_period - 1) (add_moving_averages merged)).
Proof.
  unfold dropna.
  rewrite <- (firstn_skipn (long_ma_period - 1) (add_moving_averages merged)) at 1.
  rewrite filter_app.
  replace (filter complete (firstn (long_ma_period - 1) (add_moving_averages merged)))
    with (@nil Row); [reflexivity|].
  symmetry.
  destruct (filter complete (firstn (long_ma_period - 1) (add_moving_averages merged)))
    as [|r rest] eqn:F; [reflexivity|].
  assert (Hin : In r (filter complete
                        (firstn (long_ma_period - 1) (add_moving_averages merged))))
    by (rewrite F; left; reflexivity).
  apply filter_In in Hin. destruct Hin as [Hin C].
  apply firstn_attach_long_ma in Hin. apply rolling_mean_head in Hin.
  unfold complete in C. rewrite Hin in C. cbn in C.
  rewrite !andb_false_r in C. discriminate.
Qed.

(** X5.  The snapshot that lines 120-122 leave has lost at least the
    first 79 rows of the merged frame, and each of its rows has every cell
    populated; a frame of at most 80 rows therefore leaves at most one bar
    and never gives a signal, so a signal needs 81 bars. *)
Theorem truncation_needs_long_window (merged : list (Bar * option Q)) :
  let df := dropna (add_moving_averages merged) in
  (List.length df <= List.length merged - (long_ma_period - 1))%nat
  /\ (forall r, In r df ->
        exists o h l c v x s g,
          open (bar r) = Some o /\ high (bar r) = Some h /\ low (bar r) = Some l
          /\ close (bar r) = Some c /\ volume (bar r) = Some v
          /\ vix_close r = Some x /\ short_ma r = Some s /\ long_ma r = Some g)
  /\ ((List.length merged <= long_ma_period)%nat ->
      forall today : datetime, is_crossover df today = false).
Proof.
  intro df.
  assert (L : (List.length df <= List.length merged - (long_ma_period - 1))%nat).
  { unfold df. rewrite dropna_skips_head.
    eapply Nat.le_trans; [apply filter_length_le|].
    rewrite length_skipn.
    pose proof (attach_length merged
                  (rolling_mean short_ma_period (map (fun p => close (fst p)) merged))
                  (rolling_mean long_ma_period (map (fun p => close (fst p)) merged))).
    unfold add_moving_averages. lia. }
  split; [exact L|]. split.
  - intros r Hin. unfold df, dropna in Hin. apply filter_In in Hin.
    destruct Hin as [_ C]. unfold complete in C.
    repeat (apply andb_prop in C; destruct C as [C ?]).
    destruct (open (bar r)), (high (bar r)), (low (bar r)), (close (bar r)),
             (volume (bar r)), (vix_close r), (short_ma r), (long_ma r);
      try discriminate.
    repeat eexists.
  - intros H today. apply is_crossover_short.
    unfold long_ma_period in *. lia.
Qed.

Lemma truncation_needs_long_window_witness :
  is_crossover
    (dropna (add_moving_averages (merge_asof (sort_index (firstn 80 ex_bars)) ex_vix)))
    (ex_time 79) = false.
Proof.
  apply (proj2 (proj2 (truncation_needs_long_window
                         (merge_asof (sort_index (firstn 80 ex_bars)) ex_vix)))).
  vm_compute. lia.
Defined.

(** ** Distances between price and strikes *)







(** ** More on the ledger *)

(** X8.  A state file that is no JSON text, or whose top level is not
    an object, gives the default portfolio and the error message.  In an
    object, holdings that are not a complete record - a number, a text, a
    list, an empty object - are dropped, and the warning is printed unless
    the value is [None]. *)
Theorem load_state_drops_non_records (to_datetime : pyval -> result pyval) :
  load_state to_datetime FileInvalid = (default_state, [ErrorLoadingState])
  /\ (forall loaded : pyval,
        (forall state, loaded <> PDict state) ->
        load_state to_datetime (FileJson loaded) = (default_state, [ErrorLoadingState]))
  /\ (forall state : dict,
        complete_holdings (py_get "holdings" state) = false ->
        exists st,
          load_state to_datetime (FileJson (PDict state))
          = (st, match py_get "holdings" state with
                 | PNone => []
                 | _ => [WarnIncompleteHoldings]
                 end)
          /\ py_get "holdings" st = PNone
          /\ cash_rule state st)
  /\ (forall holdings : pyval,
        (forall h, holdings <> PDict h) -> complete_holdings holdings = false)
  /\ complete_holdings (PDict []) = false.
Proof.
  split; [reflexivity|]. split; [|split; [|split; [|reflexivity]]].
  - intros loaded H. cbn [load_state].
    destruct loaded; try reflexivity. exfalso. eapply H. reflexivity.
  - intros state C.
    destruct (load_body_incomplete to_datetime state C) as (st & L & R & H & _).
    exists st. cbn [load_state]. rewrite L. auto.
  - intros holdings H. unfold complete_holdings.
    destruct holdings; rewrite ?andb_false_r; try reflexivity.
    exfalso. eapply H. reflexivity.
Qed.

Lemma load_state_drops_non_records_witness :
  exists st,
    load_state pd_to_datetime
      (FileJson (PDict [("cash", PBool true); ("holdings", PStr "none")]%string))
    = (st, [WarnIncompleteHoldings])
    /\ py_get "holdings" st = PNone
    /\ py_get "cash" st = PBool true.
Proof.
  destruct (load_state_drops_non_records pd_to_datetime) as (_ & _ & H & _).
  destruct (H [("cash", PBool true); ("holdings", PStr "none")]%string eq_refl)
    as (st & H1 & H2 & H3).
  exists st. split; [exact H1|]. split; [exact H2 | exact H3].
Defined.

Lemma dict_get_cash_check (k : string) (state1 : dict) :
  k <> "cash"%string ->
  dict_get k (if is_int_or_float (py_get "cash" state1) then state1
              else dict_set "cash" (PFloat (100000 # 1)) state1)
  = dict_get k state1.
Proof.
  intro N. destruct (is_int_or_float _); [reflexivity|].
  apply dict_get_set_other. exact N.
Qed.

(** X9.  Whenever [load_state] reads the file's object, every key other
    than [cash] and [holdings] is returned with the value the file gave it. *)
Theorem load_state_keeps_other_keys (to_datetime : pyval -> result pyval)
  (state st : dict) (msgs : list message) (k : string) :
  load_body to_datetime (PDict state) = Ok (st, msgs) ->
  k <> "cash"%string ->
  k <> "holdings"%string ->
  load_state to_datetime (FileJson (PDict state)) = (st, msgs)
  /\ dict_get k st = dict_get k state.
Proof.
  intros L Nc Nh. split; [cbn [load_state]; rewrite L; reflexivity|].
  unfold load_body in L.
  destruct (complete_holdings (py_get "holdings" state)) eqn:C.
  - unfold bind in L.
    destruct (getitem "entry_date" (py_get "holdings" state)); [|discriminate].
    destruct (to_datetime a); [|discriminate].
    destruct (getitem "expiry" (py_get "holdings" state)); [|discriminate].
    destruct (to_datetime a1); [|discriminate].
    destruct (py_get "holdings" state); try discriminate.
    injection L as <- <-.
    rewrite dict_get_cash_check by exact Nc.
    apply dict_get_set_other. exact Nh.
  - cbn [bind] in L. injection L as <- <-.
    rewrite dict_get_cash_check by exact Nc.
    apply dict_get_set_other. exact Nh.
Qed.

Lemma load_state_keeps_other_keys_witness :
  dict_get "note"
    (fst (load_state pd_to_datetime
            (FileJson (PDict [("note", PStr "paper"); ("cash", PStr "?")]%string))))
  = Some (PStr "paper").
Proof.
  destruct (load_state_keeps_other_keys pd_to_datetime
              [("note", PStr "paper"); ("cash", PStr "?")]%string
              [("note", PStr "paper"); ("cash", PFloat (100000 # 1)); ("holdings", PNone)]%string
              [] "note"%string eq_refl) as [H1 H2]; try discriminate.
  rewrite H1. exact H2.
Defined.

(** ** Positions the run cannot use *)



(** ** Saving and loading back *)

Lemma dict_set_set_same (k : string) (v v' : pyval) (d : dict) :
  dict_set k v (dict_set k v' d) = dict_set k v d.
Proof.
  induction d as [|[k0 v0] r IH]; cbn.
  - rewrite String.eqb_refl. reflexivity.
  - destruct (String.eqb k k0) eqn:E; cbn; rewrite ?String.eqb_refl, ?E; congruence.
Qed.

Lemma dict_set_get_same (k : string) (v : pyval) (d : dict) :
  dict_get k d = Some v -> dict_set k v d = d.
Proof.
  induction d as [|[k0 v0] r IH]; cbn; [discriminate|].
  destruct (String.eqb k k0) eqn:E.
  - apply String.eqb_eq in E. subst k0. intros [= ->]. reflexivity.
  - intro H. rewrite (IH H). reflexivity.
Qed.

Lemma dict_set_comm (k1 k2 : string) (v1 v2 : pyval) (d : dict) :
  k1 <> k2 ->
  has_key k1 d = true ->
  dict_set k1 v1 (dict_set k2 v2 d) = dict_set k2 v2 (dict_set k1 v1 d).
Proof.
  intros N H. unfold has_key in H.
  induction d as [|[k0 v0] r IH]; [discriminate|].
  cbn in *. destruct (String.eqb k1 k0) eqn:E1.
  - apply String.eqb_eq in E1. subst k0.
    assert (E2 : String.eqb k2 k1 = false) by (apply String.eqb_neq; congruence).
    rewrite E2. cbn. rewrite String.eqb_refl, E2. reflexivity.
  - destruct (String.eqb k2 k0) eqn:E2; cbn.
    + apply String.eqb_eq in E2. subst k0.
      rewrite E1. cbn. rewrite String.eqb_refl. reflexivity.
    + rewrite E1, E2, (IH H). reflexivity.
Qed.

Lemma has_key_get (k : string) (v : pyval) (d : dict) :
  dict_get k d = Some v -> has_key k d = true.
Proof. intro H. unfold has_key. rewrite H. reflexivity. Qed.

(** What lines 67-73 make of a position whose two dates are timestamps. *)
Lemma iso_of_timestamps (h : dict) (t1 t2 : datetime) :
  dict_get "entry_date" h = Some (PTimestamp t1) ->
  dict_get "expiry" h = Some (PTimestamp t2) ->
  iso_if_timestamp "expiry" (iso_if_timestamp "entry_date" h)
  = dict_set "expiry" (PStr (isoformat t2))
      (dict_set "entry_date" (PStr (isoformat t1)) h).
Proof.
  intros H1 H2. unfold iso_if_timestamp at 2. rewrite H1.
  unfold iso_if_timestamp. rewrite dict_get_set_other by discriminate.
  rewrite H2. reflexivity.
Qed.

Lemma restore_timestamps (h : dict) (t1 t2 : datetime) (s1 s2 : pyval) :
  dict_get "entry_date" h = Some (PTimestamp t1) ->
  dict_get "expiry" h = Some (PTimestamp t2) ->
  dict_set "expiry" (PTimestamp t2)
    (dict_set "entry_date" (PTimestamp t1)
       (dict_set "expiry" s2 (dict_set "entry_date" s1 h)))
  = h.
Proof.
  intros H1 H2.
  rewrite (dict_set_comm "entry_date" "expiry") by
    (try discriminate; apply has_key_set_same).
  rewrite !dict_set_set_same, (dict_set_get_same _ _ _ H1).
  apply dict_set_get_same. exact H2.
Qed.

Lemma load_flat_state (to_datetime : pyval -> result pyval) (state : dict) :
  is_int_or_float (py_get "cash" state) = true ->
  dict_get "holdings" state = Some PNone ->
  load_state to_datetime (FileJson (PDict state)) = (state, []).
Proof.
  intros C H. cbn [load_state]. unfold load_body.
  assert (P : py_get "holdings" state = PNone) by (unfold py_get; rewrite H; reflexivity).
  rewrite P. cbn [complete_holdings truthy andb bind].
  rewrite (dict_set_get_same _ _ _ H), C. reflexivity.
Qed.

Lemma load_saved_position (to_datetime : pyval -> result pyval)
  (state h : dict) (t1 t2 : datetime) :
  is_int_or_float (py_get "cash" state) = true ->
  dict_get "holdings" state = Some (PDict h) ->
  complete_holdings (PDict h) = true ->
  dict_get "entry_date" h = Some (PTimestamp t1) ->
  dict_get "expiry" h = Some (PTimestamp t2) ->
  to_datetime (PStr (isoformat t1)) = Ok (PTimestamp t1) ->
  to_datetime (PStr (isoformat t2)) = Ok (PTimestamp t2) ->
  state_to_save state
  = dict_set "holdings"
      (PDict (dict_set "expiry" (PStr (isoformat t2))
                (dict_set "entry_date" (PStr (isoformat t1)) h))) state
  /\ load_state to_datetime (FileJson (PDict (state_to_save state))) = (state, []).
Proof.
  intros C H Hc H1 H2 P1 P2.
  assert (T : truthy (PDict h) = true).
  { unfold complete_holdings in Hc. apply andb_prop in Hc. apply Hc. }
  assert (S : state_to_save state
              = dict_set "holdings"
                  (PDict (dict_set "expiry" (PStr (isoformat t2))
                            (dict_set "entry_date" (PStr (isoformat t1)) h))) state).
  { unfold state_to_save, py_get. rewrite H, T, (iso_of_timestamps h t1 t2 H1 H2).
    reflexivity. }
  split; [exact S|]. rewrite S.
  set (h2 := dict_set "expiry" (PStr (isoformat t2))
               (dict_set "entry_date" (PStr (isoformat t1)) h)).
  assert (Hc2 : complete_holdings (PDict h2) = true)
    by (apply complete_holdings_set, complete_holdings_set, Hc).
  assert (G1 : dict_get "entry_date" h2 = Some (PStr (isoformat t1))).
  { unfold h2. rewrite dict_get_set_other by discriminate. apply dict_get_set_same. }
  assert (G2 : dict_get "expiry" h2 = Some (PStr (isoformat t2)))
    by apply dict_get_set_same.
  cbn [load_state]. unfold load_body. rewrite py_get_set_same, Hc2.
  unfold bind, getitem. rewrite G1, P1, G2, P2.
  unfold h2. rewrite (restore_timestamps h t1 t2 _ _ H1 H2).
  rewrite dict_set_set_same, (dict_set_get_same _ _ _ H), C. reflexivity.
Qed.

Lemma save_then_load (to_datetime : pyval -> result pyval)
  (state : dict) :
  is_int_or_float (py_get "cash" state) = true ->
  json_ok (PDict (state_to_save state)) = true ->
  dict_get "holdings" state = Some PNone
  \/ (exists h t1 t2,
        dict_get "holdings" state = Some (PDict h)
        /\ complete_holdings (PDict h) = true
        /\ dict_get "entry_date" h = Some (PTimestamp t1)
        /\ dict_get "expiry" h = Some (PTimestamp t2)
        /\ to_datetime (PStr (isoformat t1)) = Ok (PTimestamp t1)
        /\ to_datetime (PStr (isoformat t2)) = Ok (PTimestamp t2)) ->
  snd (save_state state) = Ok tt
  /\ load_state to_datetime (fst (save_state state)) = (state, []).
Proof.
  intros C J H. unfold save_state, json_dump. rewrite J. cbn [fst snd].
  split; [reflexivity|].
  destruct H as [H|(h & t1 & t2 & H & Hc & H1 & H2 & P1 & P2)].
  - assert (S : state_to_save state = state).
    { unfold state_to_save, py_get. rewrite H. reflexivity. }
    rewrite S. apply load_flat_state; assumption.
  - apply (load_saved_position to_datetime state h t1 t2); assumption.
Qed.

(** X11.  A portfolio that is FLAT, or holds a complete position whose
    two dates are timestamps, with a numeric cash and otherwise JSON values,
    is saved without error, the two dates written as ISO texts; when
    [pandas.to_datetime] reads those two texts back as the same timestamps,
    [load_state] on the saved file returns the very same portfolio and prints
    nothing. *)
Theorem saved_portfolio_loads_back (to_datetime : pyval -> result pyval)
  (state : dict) :
  is_int_or_float (py_get "cash" state) = true ->
  json_ok (PDict (state_to_save state)) = true ->
  dict_get "holdings" state = Some PNone
  \/ (exists h t1 t2,
        dict_get "holdings" state = Some (PDict h)
        /\ complete_holdings (PDict h) = true
        /\ dict_get "entry_date" h = Some (PTimestamp t1)
        /\ dict_get "expiry" h = Some (PTimestamp t2)
        /\ to_datetime (PStr (isoformat t1)) = Ok (PTimestamp t1)
        /\ to_datetime (PStr (isoformat t2)) = Ok (PTimestamp t2)) ->
  snd (save_state state) = Ok tt
  /\ load_state to_datetime (fst (save_state state)) = (state, []).
Proof.
  intros C J H. unfold save_state, json_dump. rewrite J. cbn [fst snd].
  split; [reflexivity|].
  destruct H as [H|(h & t1 & t2 & H & Hc & H1 & H2 & P1 & P2)].
  - assert (S : state_to_save state = state).
    { unfold state_to_save, py_get. rewrite H. reflexivity. }
    rewrite S. apply load_flat_state; assumption.
  - apply (load_saved_position to_datetime state h t1 t2); assumption.
Qed.

Lemma saved_portfolio_loads_back_witness :
  snd (save_state [("cash", PFloat (100000 # 1)); ("holdings", ex_open_holdings)]%string)
  = Ok tt
  /\ load_state pd_to_datetime
       (fst (save_state [("cash", PFloat (100000 # 1));
                         ("holdings", ex_open_holdings)]%string))
     = ([("cash", PFloat (100000 # 1)); ("holdings", ex_open_holdings)]%string, []).
Proof.
  apply (saved_portfolio_loads_back pd_to_datetime
           [("cash", PFloat (100000 # 1)); ("holdings", ex_open_holdings)]%string).
  - reflexivity.
  - reflexivity.
  - right.
    exists [("entry_date", PTimestamp (mkdatetime (mkdate 2024 1 4) 10 30 0));
            ("expiry", PTimestamp (mkdatetime (mkdate 2024 1 11) 0 0 0));
            ("sell_strike", PInt 47000);
            ("buy_strike", PInt 46500);
            ("credit_received", PFloat (1000 # 1))]%string,
           (mkdatetime (mkdate 2024 1 4) 10 30 0),
           (mkdatetime (mkdate 2024 1 11) 0 0 0).
    repeat (split; [reflexivity|]). reflexivity.
Defined.

(** ** What a completed run leaves on disk *)

Lemma py_add_is_number (a b c : pyval) :
  py_add a b = Ok c -> is_int_or_float c = true.
Proof.
  unfold py_add.
  destruct (as_int a), (as_int b), (as_number a), (as_number b);
    intros [= <-]; reflexivity.
Qed.

Lemma transitions_outcomes (df : list Row) (today : datetime) (m : Market)
  (cash holdings cash' holdings' : pyval) (log : list TradeRecord) :
  is_int_or_float cash = true ->
  transitions df today m cash holdings = Ok (cash', holdings', log) ->
  is_int_or_float cash' = true
  /\ (holdings' = holdings \/ holdings' = PNone
      \/ exists expiry s b c, holdings' = new_holdings today expiry s b c).
Proof.
  intros C H. unfold transitions, bind in H.
  destruct (exit_step today cash holdings) as [[[c1 h1] l1]|] eqn:X; [|discriminate].
  destruct (entry_step df today m c1 h1) as [[c2 h2] l2] eqn:N.
  injection H as <- <- <-.
  assert (C1 : is_int_or_float c1 = true /\ (h1 = holdings \/ h1 = PNone)).
  { unfold exit_step, bind in X.
    destruct (truthy holdings); [|injection X as <- <- <-; auto].
    destruct (getitem "expiry" holdings); [|discriminate].
    destruct (py_date a); [|discriminate].
    destruct (date_geb (dt_date today) a0); [|injection X as <- <- <-; auto].
    destruct (getitem "credit_received" holdings); [|discriminate].
    destruct (py_sub a1 _); [|discriminate].
    destruct (py_add cash a2) eqn:A; [|discriminate].
    injection X as <- <- <-. split; [|right; reflexivity].
    eapply py_add_is_number. exact A. }
  destruct C1 as [C1 Hh1].
  destruct (entry_step_cases df today m c1 h1)
    as [E|(_ & _ & latest & price & expiry & credit & c'' & _ & _ & _ & A & E)];
    rewrite N in E; injection E as -> -> ->.
  - split; [exact C1|]. destruct Hh1; auto.
  - split; [eapply py_add_is_number; exact A|].
    right. right. repeat eexists.
Qed.

Lemma dict_set_In (k : string) (v : pyval) (d : dict) : In (k, v) (dict_set k v d).
Proof.
  induction d as [|[k0 v0] r IH]; cbn; [left; reflexivity|].
  destruct (String.eqb k k0); [left; reflexivity | right; exact IH].
Qed.

Lemma date_is_timestamp (k : string) (h : dict) (v : pyval) :
  dict_get k h = Some v ->
  py_strftime v = Ok tt ->
  json_ok (PDict (iso_if_timestamp "expiry" (iso_if_timestamp "entry_date" h))) = true ->
  k = "entry_date"%string \/ k = "expiry"%string ->
  exists t, v = PTimestamp t.
Proof.
  intros G S J K.
  destruct v; try discriminate S; [eexists; reflexivity|].
  exfalso.
  assert (F : json_ok (PDict (iso_if_timestamp "expiry" (iso_if_timestamp "entry_date" h)))
              = false).
  { apply (json_ok_dict_false k (PDatetime t)); [|reflexivity].
    destruct K as [-> | ->].
    - unfold iso_if_timestamp at 2. rewrite G.
      unfold iso_if_timestamp.
      destruct (dict_get "expiry" h) as [[]|]; try exact G.
      rewrite dict_get_set_other by discriminate. exact G.
    - unfold iso_if_timestamp at 1.
      assert (G' : dict_get "expiry" (iso_if_timestamp "entry_date" h)
                   = Some (PDatetime t)).
      { unfold iso_if_timestamp.
        destruct (dict_get "entry_date" h) as [[]|]; try exact G.
        rewrite dict_get_set_other by discriminate. exact G. }
      rewrite G'. exact G'. }
  congruence.
Qed.

(** X12.  A run that completes has written a state file from which
    [load_state] returns, without any message, exactly the cash and the
    holdings that the run reported - provided [pandas.to_datetime] reads the
    ISO texts of the position's timestamps back; and the position it reports
    is never one that this run opened: it is the position that was loaded, or
    none. *)
Theorem completed_run_persists_its_report (to_datetime : pyval -> result pyval)
  (f f' : file_content) (m : Market) (cash' holdings' : pyval)
  (log : list TradeRecord) :
  run_live_options_trader to_datetime f m
  = mkRunResult (Completed cash' holdings') f' log ->
  (forall k t, getitem k holdings' = Ok (PTimestamp t) ->
               to_datetime (PStr (isoformat t)) = Ok (PTimestamp t)) ->
  (exists st,
     load_state to_datetime f' = (st, [])
     /\ getitem "cash" (PDict st) = Ok cash'
     /\ getitem "holdings" (PDict st) = Ok holdings')
  /\ (holdings' = PNone
      \/ getitem "holdings" (PDict (fst (load_state to_datetime f))) = Ok holdings').
Proof.
  intros H P. unfold run_live_options_trader in H.
  destruct (load_state_usable to_datetime f) as (cash & holdings & Hc & Nc & Hh & Hwf).
  rewrite Hc, Hh in H. set (portfolio := fst (load_state to_datetime f)) in *.
  destruct (fetch_market_data m) as [merged|]; [|discriminate].
  destruct (index_last _) as [today|]; [|discriminate].
  destruct (transitions _ today m cash holdings) as [[[c2 h2] l2]|] eqn:T; [|discriminate].
  destruct (save_state _) as [f2 [u|e]] eqn:S; [|discriminate].
  destruct (report h2) as [u'|] eqn:R; [|discriminate].
  injection H as <- <- <- <-.
  destruct (transitions_outcomes _ _ _ _ _ _ _ _ Nc T) as [Nc2 Hcases].
  set (portfolio' := dict_set "holdings" h2 (dict_set "cash" c2 portfolio)) in *.
  assert (Gc : dict_get "cash" portfolio' = Some c2).
  { unfold portfolio'. rewrite dict_get_set_other by discriminate.
    apply dict_get_set_same. }
  assert (Gh : dict_get "holdings" portfolio' = Some h2) by apply dict_get_set_same.
  assert (Pc : is_int_or_float (py_get "cash" portfolio') = true).
  { unfold py_get. rewrite Gc. exact Nc2. }
  assert (J : json_ok (PDict (state_to_save portfolio')) = true).
  { unfold save_state, json_dump in S.
    destruct (json_ok (PDict (state_to_save portfolio'))); [reflexivity|discriminate]. }
  assert (Shape : h2 = PNone \/ (h2 = holdings /\ complete_holdings h2 = true)).
  { destruct Hcases as [->|[->|(expiry & s & b & c & ->)]].
    - destruct Hwf as [->|Hw]; [left; reflexivity | right; auto].
    - left. reflexivity.
    - exfalso. unfold portfolio' in S. rewrite new_holdings_not_saved in S.
      discriminate. }
  assert (L : load_state to_datetime f2 = (portfolio', [])).
  { pose proof (save_then_load to_datetime portfolio' Pc J) as RT.
    rewrite S in RT. cbn [fst snd] in RT. apply RT.
    destruct Shape as [->|[_ Hcomp]]; [left; exact Gh|]. right.
    destruct (complete_holdings_dict _ Hcomp) as (h & ->).
    assert (T2 : truthy (PDict h) = true).
    { unfold complete_holdings in Hcomp. apply andb_prop in Hcomp. apply Hcomp. }
    assert (J2 : json_ok (PDict (iso_if_timestamp "expiry"
                                   (iso_if_timestamp "entry_date" h))) = true).
    { unfold state_to_save, py_get in J. rewrite Gh, T2 in J.
      cbn [json_ok] in J. rewrite forallb_forall in J.
      apply (J ("holdings"%string,
                PDict (iso_if_timestamp "expiry" (iso_if_timestamp "entry_date" h)))).
      apply dict_set_In. }
    unfold report, bind in R. rewrite T2 in R. unfold getitem in R.
    destruct (dict_get "entry_date" h) as [e1|] eqn:G1; [|discriminate].
    destruct (py_strftime e1) as [u1|] eqn:S1; [destruct u1|discriminate].
    destruct (dict_get "expiry" h) as [e2|] eqn:G2; [|discriminate].
    destruct (py_strftime e2) as [u2|] eqn:S2; [destruct u2|discriminate].
    destruct (date_is_timestamp _ _ _ G1 S1 J2 (or_introl eq_refl)) as (t1 & ->).
    destruct (date_is_timestamp _ _ _ G2 S2 J2 (or_intror eq_refl)) as (t2 & ->).
    exists h, t1, t2. repeat split; auto.
    - apply (P "entry_date"%string). unfold getitem. rewrite G1. reflexivity.
    - apply (P "expiry"%string). unfold getitem. rewrite G2. reflexivity. }
  split.
  - exists portfolio'. split; [exact L|]. unfold getitem. rewrite Gc, Gh. auto.
  - destruct Shape as [->|[-> _]]; [left; reflexivity | right; exact Hh].
Qed.

Lemma completed_run_persists_its_report_witness :
  exists st,
    load_state pd_to_datetime ex_carried_file = (st, [])
    /\ getitem "cash" (PDict st) = Ok (PFloat (101160 # 1))
    /\ getitem "holdings" (PDict st) = Ok ex_carried_holdings.
Proof.
  refine (proj1 (completed_run_persists_its_report pd_to_datetime
                   ex_carried_file ex_carried_file ex_later_market
                   (PFloat (101160 # 1)) ex_carried_holdings [] _ _)).
  - vm_compute. reflexivity.
  - intros k t G. unfold getitem, ex_carried_holdings in G. cbn [dict_get] in G.
    repeat match type of G with
           | context [String.eqb k ?s] => destruct (String.eqb k s)
           end;
      try discriminate G; injection G as <-; reflexivity.
Defined.

(** ** The chosen expiry *)

(** *** Order of texts *)

Lemma ascii_compare_lt_trans (a b c : ascii) :
  Ascii.compare a b = Lt -> Ascii.compare b c = Lt -> Ascii.compare a c = Lt.
Proof.
  unfold Ascii.compare. rewrite !N.compare_lt_iff. apply N.lt_trans.
Qed.

Lemma string_compare_lt_trans (a : string) : forall b c,
  String.compare a b = Lt -> String.compare b c = Lt -> String.compare a c = Lt.
Proof.
  induction a as [|x a IH]; intros b c H1 H2.
  - destruct b as [|y b]; [discriminate|]. destruct c as [|z c]; [discriminate|].
    reflexivity.
  - destruct b as [|y b]; [discriminate|]. destruct c as [|z c]; [discriminate|].
    cbn [String.compare] in *.
    destruct (Ascii.compare x y) eqn:E1; try discriminate;
      destruct (Ascii.compare y z) eqn:E2; try discriminate.
    + apply Ascii.compare_eq_iff in E1, E2. subst y z.
      assert (R : Ascii.compare x x = Eq)
        by (unfold Ascii.compare; apply N.compare_refl).
      rewrite R. exact (IH b c H1 H2).
    + apply Ascii.compare_eq_iff in E1. subst y. rewrite E2. reflexivity.
    + apply Ascii.compare_eq_iff in E2. subst z. rewrite E1. reflexivity.
    + rewrite (ascii_compare_lt_trans x y z E1 E2). reflexivity.
Qed.

Lemma string_ltb_trans (a b c : string) :
  (a <? b)%string = true -> (b <? c)%string = true -> (a <? c)%string = true.
Proof.
  unfold String.ltb. intros H1 H2.
  destruct (String.compare a b) eqn:E1; try discriminate.
  destruct (String.compare b c) eqn:E2; try discriminate.
  rewrite (string_compare_lt_trans a b c E1 E2). reflexivity.
Qed.

Lemma string_ltb_irrefl (a : string) : (a <? a)%string = false.
Proof.
  unfold String.ltb.
  assert (R : String.compare a a = Eq).
  { induction a as [|x a IH]; [reflexivity|]. cbn [String.compare].
    assert (E : Ascii.compare x x = Eq) by (unfold Ascii.compare; apply N.compare_refl).
    rewrite E. exact IH. }
  rewrite R. reflexivity.
Qed.

Lemma fold_min_least (l : list string) : forall x y,
  In y (x :: l) ->
  (y <? fold_left (fun m s => if (s <? m)%string then s else m) l x)%string = false.
Proof.
  induction l as [|z r IH]; intros x y Hin.
  - destruct Hin as [<-|[]]. apply string_ltb_irrefl.
  - cbn [fold_left]. destruct (z <? x)%string eqn:E.
    + destruct Hin as [<-|[<-|Hin]].
      * destruct (x <? fold_left _ r z)%string eqn:F; [|reflexivity].
        pose proof (IH z z (or_introl eq_refl)) as Hz.
        rewrite (string_ltb_trans z x _ E F) in Hz. discriminate.
      * apply IH. left. reflexivity.
      * apply IH. right. exact Hin.
    + destruct Hin as [<-|[<-|Hin]].
      * apply IH. left. reflexivity.
      * destruct (z <? fold_left _ r x)%string eqn:F; [|reflexivity].
        pose proof (IH x x (or_introl eq_refl)) as Hx.
        (* z < min <= x contradicts z >= x *)
        destruct (x <? z)%string eqn:G.
        -- rewrite (string_ltb_trans x z _ G F) in Hx. discriminate.
        -- assert (x = z).
           { unfold String.ltb in E, G. rewrite String.compare_antisym in G.
             destruct (String.compare z x) eqn:C; try discriminate.
             apply String.compare_eq_iff in C. congruence. }
           subst z. rewrite F in Hx. discriminate.
      * apply IH. right. exact Hin.
Qed.

Lemma str_min_least (l : list string) (m y : string) :
  str_min l = Some m -> In y l -> (y <? m)%string = false.
Proof.
  destruct l as [|x r]; [discriminate|]. intros [= <-] Hin.
  apply fold_min_least. exact Hin.
Qed.

Lemma valid_expiries_complete (today : datetime) (available : list string) :
  forall valid, valid_expiries today available = Ok valid ->
  forall exp t, In exp available -> strptime exp = Ok t ->
                dte_in_range t today = true -> In exp valid.
Proof.
  induction available as [|x rest IH]; intros valid H exp t Hin P D; [destruct Hin|].
  cbn [valid_expiries] in H. unfold bind in H.
  destruct (strptime x) as [tx|] eqn:Px; [|discriminate].
  destruct (valid_expiries today rest) as [r|] eqn:R; [|discriminate].
  injection H as <-.
  destruct Hin as [->|Hin].
  - rewrite P in Px. injection Px as <-. rewrite D. left. reflexivity.
  - specialize (IH r eq_refl exp t Hin P D).
    destruct (dte_in_range tx today); [right|]; exact IH.
Qed.

(** *** Zero-padded dates compare as dates *)

Lemma lex_assoc (a b c : comparison) : lex (lex a b) c = lex a (lex b c).
Proof. destruct a; reflexivity. Qed.

Lemma lex_eq_r (a : comparison) : lex a Eq = a.
Proof. destruct a; reflexivity. Qed.

Lemma compare_base10 (q1 r1 q2 r2 : Z) :
  0 <= r1 <= 9 -> 0 <= r2 <= 9 ->
  (q1 * 10 + r1 ?= q2 * 10 + r2) = lex (q1 ?= q2) (r1 ?= r2).
Proof.
  intros H1 H2.
  destruct (Z.compare_spec q1 q2) as [E|L|G]; cbn [lex].
  - subst q2. destruct (Z.compare_spec r1 r2) as [E'|L'|G'].
    + apply Z.compare_eq_iff. lia.
    + apply Z.compare_lt_iff. lia.
    + apply Z.compare_gt_iff. lia.
  - apply Z.compare_lt_iff. lia.
  - apply Z.compare_gt_iff. lia.
Qed.

Lemma digit_char_mod (n : Z) : digit_char n = digit_char (n mod 10).
Proof. unfold digit_char. rewrite Z.mod_mod by lia. reflexivity. Qed.

Lemma digit_compare (d1 d2 : Z) :
  0 <= d1 <= 9 -> 0 <= d2 <= 9 ->
  Ascii.compare (digit_char d1) (digit_char d2) = (d1 ?= d2).
Proof.
  intros H1 H2.
  rewrite <- (Z2Nat.id d1), <- (Z2Nat.id d2) by lia.
  assert (B1 : (Z.to_nat d1 < 10)%nat) by dlia.
  assert (B2 : (Z.to_nat d2 < 10)%nat) by dlia.
  revert B1 B2. generalize (Z.to_nat d1) (Z.to_nat d2). clear.
  intros n1 n2 B1 B2.
  do 10 (destruct n1 as [|n1]; [do 10 (destruct n2 as [|n2]; [reflexivity|]); lia|]).
  lia.
Qed.

Lemma string_compare_cons (c c' : ascii) (s s' : string) :
  String.compare (String c s) (String c' s')
  = lex (Ascii.compare c c') (String.compare s s').
Proof. cbn [String.compare]. destruct (Ascii.compare c c'); reflexivity. Qed.

Lemma compare_pad2 (x y : Z) (s s' : string) :
  0 <= x < 100 -> 0 <= y < 100 ->
  String.compare (pad2 x ++ s) (pad2 y ++ s') = lex (x ?= y) (String.compare s s').
Proof.
  intros Hx Hy. unfold pad2. cbn [String.append].
  rewrite !string_compare_cons.
  rewrite (digit_char_mod x), (digit_char_mod y).
  rewrite (digit_compare (x / 10) (y / 10)) by dlia.
  rewrite (digit_compare (x mod 10) (y mod 10)) by dlia.
  rewrite <- lex_assoc, <- compare_base10 by dlia.
  replace (x / 10 * 10 + x mod 10) with x by dlia.
  replace (y / 10 * 10 + y mod 10) with y by dlia.
  reflexivity.
Qed.

Lemma pad2_mod (z : Z) : pad2 z = pad2 (z mod 100).
Proof.
  unfold pad2.
  rewrite (digit_char_mod (z / 10)), (digit_char_mod z),
          (digit_char_mod (z mod 100 / 10)), (digit_char_mod (z mod 100)).
  replace ((z mod 100 / 10) mod 10) with ((z / 10) mod 10) by dlia.
  replace ((z mod 100) mod 10) with (z mod 10) by dlia. reflexivity.
Qed.

Lemma compare_pad4 (x y : Z) (s s' : string) :
  0 <= x < 10000 -> 0 <= y < 10000 ->
  String.compare (pad4 x ++ s) (pad4 y ++ s') = lex (x ?= y) (String.compare s s').
Proof.
  intros Hx Hy. unfold pad4. cbn [String.append].
  rewrite !string_compare_cons.
  rewrite (pad2_mod x), (pad2_mod y).
  rewrite (compare_pad2 (x mod 100) (y mod 100)) by dlia.
  rewrite (digit_char_mod (x / 100)), (digit_char_mod (y / 100)).
  rewrite (digit_compare (x / 1000) (y / 1000)) by dlia.
  rewrite (digit_compare ((x / 100) mod 10) ((y / 100) mod 10)) by dlia.
  rewrite <- !lex_assoc. f_equal.
  rewrite <- compare_base10 by dlia.
  replace (x / 1000 * 10 + (x / 100) mod 10) with (x / 100) by dlia.
  replace (y / 1000 * 10 + (y / 100) mod 10) with (y / 100) by dlia.
  destruct (Z.compare_spec (x / 100) (y / 100)) as [E|L|G]; cbn [lex].
  - destruct (Z.compare_spec (x mod 100) (y mod 100)) as [E'|L'|G'].
    + symmetry. apply Z.compare_eq_iff. dlia.
    + symmetry. apply Z.compare_lt_iff. dlia.
    + symmetry. apply Z.compare_gt_iff. dlia.
  - symmetry. apply Z.compare_lt_iff. dlia.
  - symmetry. apply Z.compare_gt_iff. dlia.
Qed.

Lemma isodate_compare (a b : date) :
  0 <= year a < 10000 -> 0 <= month a < 100 -> 0 <= day a < 100 ->
  0 <= year b < 10000 -> 0 <= month b < 100 -> 0 <= day b < 100 ->
  String.compare (isodate a) (isodate b) = date_compare a b.
Proof.
  intros. unfold isodate, date_compare.
  rewrite compare_pad4 by assumption. f_equal.
  cbn [String.append]. rewrite string_compare_cons.
  change (Ascii.compare "-" "-") with Eq. cbn [lex].
  rewrite compare_pad2 by assumption. f_equal.
  rewrite string_compare_cons.
  change (Ascii.compare "-" "-") with Eq. cbn [lex].
  transitivity (String.compare (pad2 (day a) ++ "") (pad2 (day b) ++ ""));
    [unfold pad2; reflexivity|].
  rewrite compare_pad2 by assumption. apply lex_eq_r.
Qed.

(** *** What [strptime] accepts *)

Lemma digit_value_range (c : ascii) (d : Z) : digit_value c = Some d -> 0 <= d <= 9.
Proof.
  unfold digit_value.
  destruct ((48 <=? Z.of_nat (nat_of_ascii c)) && (Z.of_nat (nat_of_ascii c) <=? 57)) eqn:E;
    [|discriminate].
  apply andb_prop in E. destruct E as [E1 E2].
  apply Z.leb_le in E1, E2. intros [= <-]. lia.
Qed.

Lemma digits_value_bound (s : string) : forall acc v,
  0 <= acc -> digits_value acc s = Some v ->
  0 <= v < (acc + 1) * 10 ^ Z.of_nat (String.length s).
Proof.
  induction s as [|c s IH]; intros acc v A H.
  - cbn in *. injection H as <-. lia.
  - cbn [digits_value] in H. destruct (digit_value c) as [d|] eqn:D; [|discriminate].
    apply digit_value_range in D.
    apply IH in H; [|lia].
    cbn [String.length]. rewrite Nat2Z.inj_succ, Z.pow_succ_r by lia.
    assert (P : 0 < 10 ^ Z.of_nat (String.length s)) by (apply Z.pow_pos_nonneg; lia).
    nia.
Qed.

Lemma days_in_month_le (y m : Z) : days_in_month y m <= 31.
Proof.
  unfold days_in_month. destruct ((m =? 2) && is_leap y); [lia|].
  destruct (Z.to_nat m) as [|n]; [cbn; lia|].
  do 12 (destruct n as [|n]; [cbn; lia|]). cbn. destruct n; lia.
Qed.

Lemma parse_ymd_range (s : string) (d : date) :
  parse_ymd s = Some d ->
  1 <= year d < 10000 /\ 1 <= month d <= 12 /\ 1 <= day d <= 31.
Proof.
  unfold parse_ymd.
  destruct (split_on "-" s) as [|ys [|ms [|ds [|]]]]; try discriminate.
  destruct (number_of ys) as [y|] eqn:Ny; [|discriminate].
  destruct (number_of ms) as [m|]; [|discriminate].
  destruct (number_of ds) as [dd|]; [|discriminate].
  destruct ((len ys =? 4) && between 1 (len ms) 2 && between 1 (len ds) 2
            && (1 <=? y) && between 1 m 12 && between 1 dd (days_in_month y m)) eqn:C;
    [|discriminate].
  intros [= <-]. cbn [year month day].
  unfold between in C.
  repeat (apply andb_prop in C; destruct C as [C ?]).
  repeat match goal with
         | H : (_ <=? _) = true |- _ => apply Z.leb_le in H
         | H : (_ =? _) = true |- _ => apply Z.eqb_eq in H
         end.
  pose proof (days_in_month_le y m).
  assert (Y : 0 <= y < 10000).
  { unfold number_of in Ny. destruct ys as [|c ys']; [discriminate|].
    apply digits_value_bound in Ny; [|lia].
    unfold len in C. rewrite C in Ny. cbn in Ny. lia. }
  lia.
Qed.

Lemma strptime_range (exp : string) (t : datetime) :
  strptime exp = Ok t ->
  1 <= year (dt_date t) < 10000 /\ 1 <= month (dt_date t) <= 12
  /\ 1 <= day (dt_date t) <= 31.
Proof.
  unfold strptime. destruct (parse_ymd exp) as [d|] eqn:P; [|discriminate].
  intros [= <-]. cbn [dt_date]. apply parse_ymd_range with exp. exact P.
Qed.

(** X7.  The expiry that line 159 chooses is one of the offered
    expiries, it parses and lies in the window of line 156, and no offered
    expiry that lies in the window precedes it as a text.  When the offered
    expiries are written with leading zeros, the chosen one is the earliest
    date among those in the window. *)
Theorem chosen_expiry_is_least
  (today : datetime) (available_expiries valid : list string)
  (target_expiry_str : string) :
  valid_expiries today available_expiries = Ok valid ->
  str_min valid = Some target_expiry_str ->
  In target_expiry_str available_expiries
  /\ (exists t0,
        strptime target_expiry_str = Ok t0
        /\ 0 <= timedelta_days t0 today <= max_dte
        /\ ((forall exp t, In exp available_expiries -> strptime exp = Ok t ->
                           exp = isodate (dt_date t)) ->
            forall exp t,
              In exp available_expiries ->
              strptime exp = Ok t ->
              0 <= timedelta_days t today <= max_dte ->
              date_compare (dt_date t0) (dt_date t) <> Gt))
  /\ (forall exp t,
        In exp available_expiries ->
        strptime exp = Ok t ->
        0 <= timedelta_days t today <= max_dte ->
        (exp <? target_expiry_str)%string = false).
Proof.
  intros V M.
  destruct (valid_expiries_sound today _ _ V _ (str_min_In _ _ M)) as (Hin & t0 & P0 & D0).
  assert (Least : forall exp t,
             In exp available_expiries -> strptime exp = Ok t ->
             0 <= timedelta_days t today <= max_dte ->
             (exp <? target_expiry_str)%string = false).
  { intros exp t Hi P D. apply (str_min_least valid); [exact M|].
    apply (valid_expiries_complete today available_expiries valid V exp t Hi P).
    unfold dte_in_range. apply andb_true_iff. split; apply Z.leb_le; lia. }
  split; [exact Hin|]. split; [|exact Least].
  exists t0. split; [exact P0|]. split.
  - unfold dte_in_range in D0. apply andb_true_iff in D0.
    destruct D0 as [D1 D2]. apply Z.leb_le in D1, D2. lia.
  - intros Padded exp t Hi P D G.
    pose proof (Least exp t Hi P D) as L.
    rewrite (Padded exp t Hi P), (Padded _ t0 Hin P0) in L.
    unfold String.ltb in L.
    pose proof (strptime_range _ _ P) as R. pose proof (strptime_range _ _ P0) as R0.
    rewrite isodate_compare in L by lia.
    assert (A : date_compare (dt_date t) (dt_date t0) = Lt).
    { rewrite <- (isodate_compare (dt_date t) (dt_date t0)) by lia.
      rewrite String.compare_antisym.
      rewrite (isodate_compare (dt_date t0) (dt_date t)) by lia.
      rewrite G. reflexivity. }
    rewrite A in L. discriminate.
Qed.

Lemma chosen_expiry_is_least_witness :
  In "2024-01-17"%string ["2024-01-25"; "2024-01-18"; "2024-01-17"; "2024-01-11"]%string
  /\ ("2024-01-18" <? "2024-01-17")%string = false.
Proof.
  destruct (chosen_expiry_is_least ex_today
              ["2024-01-25"; "2024-01-18"; "2024-01-17"; "2024-01-11"]%string
              ["2024-01-18"; "2024-01-17"]%string "2024-01-17"%string
              eq_refl eq_refl) as (H1 & _ & H3).
  split; [exact H1|].
  apply (H3 "2024-01-18"%string (mkdatetime (mkdate 2024 1 18) 0 0 0)).
  - right. left. reflexivity.
  - reflexivity.
  - vm_compute. split; discriminate.
Defined.

(** ** Runs that rewrite what they read *)



(** ** What a run adds to the trade log *)

(** X17.  The transitions of one run hand at most two records to
    [log_trade], an exit record before an entry record; on a log whose Sheet1
    already holds rows they become that many new rows below the old ones, in
    that order, and the old rows are kept. *)
Theorem run_appends_at_most_two_rows
  (df : list Row) (today : datetime) (m : Market)
  (cash holdings cash' holdings' : pyval) (log : list TradeRecord)
  (book : workbook) (s : worksheet) :
  transitions df today m cash holdings = Ok (cash', holdings', log) ->
  sheet_get "Sheet1" book = Some s ->
  s <> [] ->
  (log = []
   \/ (exists pnl, log = [ExitRecord today pnl])
   \/ (exists c sell buy, log = [EntryRecord today c sell buy])
   \/ (exists pnl c sell buy,
         log = [ExitRecord today pnl; EntryRecord today c sell buy]))
  /\ exists book',
       log_all (Some book) log = Some book'
       /\ sheet_get "Sheet1" book'
          = Some (s ++ map (fun r => values_of (record_dict r)) log).
Proof.
  intros T G N. split.
  - unfold transitions, bind in T.
    destruct (exit_step today cash holdings) as [[[c1 h1] l1]|] eqn:X; [|discriminate].
    destruct (entry_step df today m c1 h1) as [[c2 h2] l2] eqn:E.
    injection T as <- <- <-.
    pose proof (entry_step_cases df today m c1 h1) as EC. rewrite E in EC.
    destruct (exit_step_cases _ _ _ _ X) as [Hx|(_ & c' & pnl & Hx)];
      injection Hx as -> -> ->;
      (destruct EC as [He|(_ & _ & latest & price & expiry & credit & c'' & _ & _ & _ & _ & He)];
       injection He as -> -> ->).
    + left. reflexivity.
    + right. right. left. repeat eexists.
    + right. left. eexists. reflexivity.
    + right. right. right. repeat eexists.
  - rewrite (log_all_existing log book s G N).
    eexists. split; [reflexivity|].
    destruct log as [|r rest].
    + cbn [map]. rewrite app_nil_r. exact G.
    + apply sheet_get_set_same.
Qed.

Lemma run_appends_at_most_two_rows_witness :
  exists book',
    log_all (Some [("Sheet1"%string, [[PStr "ExitDate"; PStr "PnL"; PStr "Reason"]])])
            [ExitRecord ex_today (PFloat (960 # 1));
             EntryRecord ex_today (1200 # 1) 48000 47500]
    = Some book'
    /\ sheet_get "Sheet1" book'
       = Some ([[PStr "ExitDate"; PStr "PnL"; PStr "Reason"]]
               ++ [[PTimestamp ex_today; PFloat (960 # 1); PStr "Expiry"];
                   [PTimestamp ex_today; PFloat (1200 # 1); PInt 48000; PInt 47500]]).
Proof.
  refine (proj2 (run_appends_at_most_two_rows ex_df ex_today ex_market
                   (PFloat (100000 # 1)) ex_open_holdings
                   (PFloat (102120 # 1))
                   (new_holdings ex_today ex_expiry 48000 47500 (1200 # 1))
                   [ExitRecord ex_today (PFloat (960 # 1));
                    EntryRecord ex_today (1200 # 1) 48000 47500]
                   [("Sheet1"%string, [[PStr "ExitDate"; PStr "PnL"; PStr "Reason"]])]
                   [[PStr "ExitDate"; PStr "PnL"; PStr "Reason"]]
                   _ _ _)).
  - reflexivity.
  - reflexivity.
  - discriminate.
Defined.
